(** * GenericClient: the remote-proxy element of OpenSees

    A shallow embedding of [SRC/element/generic/GenericClient.cpp] and the
    verification of its connection life cycle, command protocol, caching
    policy and DOF mapping.

    Conventions.
    - [int] values are integers of [Z]; signed overflow is undefined in C++,
      so the embedding describes the executions that stay in range.
    - [double] values are IEEE-754 binary64 numbers ([PrimFloat.float]).
    - A pointer member is an [option]; dereferencing [None] is undefined
      behaviour and is reported as [Undefined NullPointer].
    - The buffers [sData] and [rData] are the only storage behind the
      vectors [sendData], [db], [vb], [ab], [t], [recvData], [qDaq] and the
      matrix [rMatrix]; those members are views (base, offset, length) and
      every access goes through the shared buffer. *)

From Stdlib Require Import ZArith Floats.PrimFloat.
From stdpp Require Import base list gmap strings.

Local Open Scope Z_scope.

(* ===================================================================== *)
(** ** Outcomes of possibly undefined code *)

Inductive Fault := NullPointer | OutOfBounds.

Inductive Outcome (A : Type) :=
  | Done (a : A)
  | Undefined (f : Fault).
Arguments Done {A} a.
Arguments Undefined {A} f.

Global Instance Outcome_ret : MRet Outcome := fun A a => Done a.

Global Instance Outcome_bind : MBind Outcome := fun A B k c =>
  match c with
  | Done a => k a
  | Undefined f => Undefined f
  end.

Definition is_done {A} (c : Outcome A) : Prop :=
  match c with Done _ => True | Undefined _ => False end.

(** Dereference of a pointer member. *)
Definition deref {A} (p : option A) : Outcome A :=
  match p with
  | Some a => Done a
  | None => Undefined NullPointer
  end.

(* ===================================================================== *)
(** ** The numeric containers: [ID], [Vector], [Matrix] *)

Abbreviation double := float (only parsing).
Abbreviation ID := (list Z) (only parsing).
Abbreviation Vector := (list float) (only parsing).

(** A matrix is the list of its rows. *)
Abbreviation Matrix := (list (list float)) (only parsing).

Definition dzero : double := 0%float.

Definition ID_Size (v : ID) : Z := Z.of_nat (length v).
Definition Vector_Size (v : Vector) : Z := Z.of_nat (length v).
Definition Matrix_noRows (m : Matrix) : Z := Z.of_nat (length m).

(** [ID(n)], [Vector(n)], [Matrix(r,c)]: fresh containers holding zeros. *)
Definition ID_new (n : Z) : ID := replicate (Z.to_nat n) 0.
Definition Vector_new (n : Z) : Vector := replicate (Z.to_nat n) dzero.
Definition Matrix_new (r c : Z) : Matrix :=
  replicate (Z.to_nat r) (Vector_new c).

Definition ID_resize (n : Z) (v : ID) : ID := resize (Z.to_nat n) 0 v.
Definition ID_Zero (v : ID) : ID := replicate (length v) 0.
Definition Vector_resize (n : Z) (v : Vector) : Vector :=
  resize (Z.to_nat n) dzero v.
Definition Vector_Zero (v : Vector) : Vector := replicate (length v) dzero.
Definition Matrix_resize (r c : Z) (m : Matrix) : Matrix :=
  resize (Z.to_nat r) (Vector_new c) (Vector_resize c <$> m).
Definition Matrix_Zero (m : Matrix) : Matrix := Vector_Zero <$> m.

(** [v(pos) += x], skipped when [pos] is outside the vector. *)
Definition Vector_addAt (pos : Z) (x : double) (v : Vector) : Vector :=
  if decide (0 <= pos) then alter (fun y => PrimFloat.add y x) (Z.to_nat pos) v
  else v.

(** [m(r,c) += x], skipped when the position is outside the matrix. *)
Definition Matrix_addAt (r c : Z) (x : double) (m : Matrix) : Matrix :=
  if decide (0 <= r) then alter (Vector_addAt c x) (Z.to_nat r) m else m.

(** Modelled from the spec: [Vector::Assemble(const Vector&, const ID&)] of
    Vector.cpp, which is not part of the sources at hand.  "Scatters a
    basic-space vector into the full-space container at positions given by
    the Basic DOF Index Set": entry [i] of [V] is added at position [l(i)]. *)
Definition Vector_Assemble (V : Vector) (l : ID) (v : Vector) : Vector :=
  foldl (fun acc px => Vector_addAt px.1 px.2 acc) v (zip l V).

(** Modelled from the spec: [Vector::Assemble(const Vector&, int)] of
    Vector.cpp: the entries of [V] are added from position [init_pos] on. *)
Definition Vector_AssembleAt (V : Vector) (init_pos : Z) (v : Vector)
  : Vector :=
  foldl (fun acc ix => Vector_addAt (init_pos + Z.of_nat ix.1) ix.2 acc)
        v (imap pair V).

(** Modelled from the spec: [Vector::operator()(const ID&)] of Vector.cpp:
    the vector of the entries selected by [rows]; a position outside the
    vector selects zero. *)
Definition Vector_select (v : Vector) (rows : ID) : Vector :=
  (fun pos => if decide (0 <= pos)
              then default dzero (v !! Z.to_nat pos) else dzero) <$> rows.

(** Modelled from the spec: [Matrix::Assemble(const Matrix&, const ID&,
    const ID&)] of Matrix.cpp: entry [(i,j)] of [V] is added at position
    [(rows(i), cols(j))]. *)
Definition Matrix_Assemble (V : Matrix) (rows cols : ID) (m : Matrix)
  : Matrix :=
  foldl (fun acc rV =>
           foldl (fun acc' cx => Matrix_addAt rV.1 cx.1 cx.2 acc')
                 acc (zip cols rV.2))
        m (zip rows V).




(* ===================================================================== *)
(** ** Views into the transmit and receive buffers *)

Inductive Buffer := SData | RData.

(** [new Vector(&buf[off], len)]: [len] doubles of buffer [vbase] from
    [voff] on; the vector owns no storage. *)
Record View := mkView { vbase : Buffer; voff : Z; vlen : Z }.

(** [new Matrix(buf, r, c)]: the front of buffer [mbase] read as a matrix. *)
Record MatrixView := mkMatrixView { mbase : Buffer; mrows : Z; mcols : Z }.

Definition in_bounds (off len : Z) (buf : Vector) : Prop :=
  0 <= off /\ 0 <= len /\ off + len <= Z.of_nat (length buf).

Global Instance in_bounds_dec off len buf : Decision (in_bounds off len buf).
Proof. unfold in_bounds. apply _. Defined.

(** Read [len] entries from [off]. *)
Definition slice (off len : Z) (buf : Vector) : Outcome Vector :=
  if decide (in_bounds off len buf)
  then Done (take (Z.to_nat len) (drop (Z.to_nat off) buf))
  else Undefined OutOfBounds.

(** Overwrite the entries from [off] on with [data]. *)
Definition blit (off : Z) (data buf : Vector) : Outcome Vector :=
  if decide (in_bounds off (Z.of_nat (length data)) buf)
  then Done (take (Z.to_nat off) buf ++ data
             ++ drop (Z.to_nat off + length data) buf)
  else Undefined OutOfBounds.

(** [buf[i] = x]. *)
Definition store (i : Z) (x : double) (buf : Vector) : Outcome Vector :=
  blit i [x] buf.

(** Modelled from the spec: the matrix view of Matrix.cpp over foreign
    storage, "the same storage alternatively interpreted row-major as an
    numBasicDOF x numBasicDOF matrix". *)
Definition matrix_rows (r c : Z) (buf : Vector) : Matrix :=
  (fun i : nat => take (Z.to_nat c) (drop (i * Z.to_nat c)%nat buf))
    <$> seq 0 (Z.to_nat r).

Definition matrix_of (r c : Z) (buf : Vector) : Outcome Matrix :=
  if decide (in_bounds 0 (r * c) buf)
  then Done (matrix_rows r c buf)
  else Undefined OutOfBounds.

(* ===================================================================== *)
(** ** Control flow *)

(** [for (i = start; i < start + n; i++) body], threading the loop state. *)
Fixpoint for_loop {St : Type} (start n : nat)
    (body : nat -> St -> Outcome St) (st : St) : Outcome St :=
  match n with
  | O => Done st
  | S n' => st' ← body start st; for_loop (S start) n' body st'
  end.

(** [for (i = 0; i < bound; i++) body]. *)
Definition for_upto {St : Type} (bound : Z)
    (body : nat -> St -> Outcome St) (st : St) : Outcome St :=
  for_loop 0 (Z.to_nat bound) body st.

(** [a[i]] as an rvalue. *)
Definition index {A} (a : list A) (i : nat) : Outcome A :=
  match a !! i with
  | Some x => Done x
  | None => Undefined OutOfBounds
  end.

(** [a[i] = x]. *)
Definition assign {A} (a : list A) (i : Z) (x : A) : Outcome (list A) :=
  if decide (0 <= i < Z.of_nat (length a))
  then Done (<[Z.to_nat i := x]> a)
  else Undefined OutOfBounds.

(* ===================================================================== *)
(** ** External collaborators: nodes, domain, channel *)

Record Node := mkNode {
  getNumberDOF : Z;
  getTrialDisp : Vector;
  getTrialVel : Vector;
  getTrialAccel : Vector
}.

(** The domain owns the nodes; a [Node*] handed out by [getNode] is the tag
    under which the domain keeps the node. *)
Record Domain := mkDomain {
  nodes : gmap Z Node;
  getCurrentTime : double
}.

Definition Domain_getNode (dom : Domain) (tag : Z) : option Z :=
  if nodes dom !! tag is Some _ then Some tag else None.

(** [theNodes[i]->...]: a null or dangling node pointer is undefined. *)
Definition node_at (dom : Domain) (p : option Z) : Outcome Node :=
  tag ← deref p; deref (nodes dom !! tag).

Inductive Transport := TCP_Socket | UDP_Socket | TCP_SocketSSL.

(** The operations invoked on the channel, in the order of invocation. *)
Inductive Call :=
  | setUpConnection
  | sendID (data : ID)
  | sendVector (data : Vector)
  | recvVector (size : Z).

(** What the remote side delivers for one receive: the numbers that arrive
    and whether the reply arrived whole. *)
Record Reply := mkReply { payload : Vector; complete : bool }.

(** The remote test site as seen from the client. *)
Record Remote := mkRemote { accepting : bool; replies : list Reply }.

(** Modelled from the spec: the classes Channel, TCP_Socket, UDP_Socket and
    TCP_SocketSSL, which are not part of the sources at hand; "a reliable,
    ordered byte channel with send/receive primitives" whose failures are a
    "short read/write on an established channel".  A channel records the
    calls made on it; a send fails on a dead channel; a receive overwrites
    the front of the destination with what arrives and fails, killing the
    channel, when the reply is cut short or missing. *)
Record Channel := mkChannel {
  transport : Transport;
  peerPort : Z;
  peerAddr : string;
  alive : bool;
  calls : list Call;
  inbox : list Reply
}.

Definition Channel_new (k : Transport) (p : Z) (addr : string) (r : Remote)
  : Channel :=
  mkChannel k p addr (accepting r) [] (replies r).

Definition status (ok : bool) : Z := if ok then 0 else -1.

Definition log (c : Call) (ch : Channel) : Channel :=
  mkChannel (transport ch) (peerPort ch) (peerAddr ch) (alive ch)
            (calls ch ++ [c]) (inbox ch).

Definition Channel_setUpConnection (ch : Channel) : Z * Channel :=
  (status (alive ch), log setUpConnection ch).

Definition Channel_sendID (ch : Channel) (data : ID) : Z * Channel :=
  (status (alive ch), log (sendID data) ch).

Definition Channel_sendVector (ch : Channel) (data : Vector) : Z * Channel :=
  (status (alive ch), log (sendVector data) ch).

Definition Channel_recvVector (ch : Channel) (dest : Vector)
  : Z * Vector * Channel :=
  let ch := log (recvVector (Vector_Size dest)) ch in
  if alive ch then
    match inbox ch with
    | [] =>
        (-1, dest,
         mkChannel (transport ch) (peerPort ch) (peerAddr ch) false
                   (calls ch) [])
    | r :: rest =>
        let got := take (length dest) (payload r) in
        let ok := complete r && bool_decide (length got = length dest) in
        (status ok, got ++ drop (length got) dest,
         mkChannel (transport ch) (peerPort ch) (peerAddr ch) ok
                   (calls ch) rest)
    end
  else (-1, dest, ch).

(** The command codes shared with the remote process. *)
Inductive RemoteTest :=
  | RemoteTest_setTrialResponse
  | RemoteTest_commitState
  | RemoteTest_getForce
  | RemoteTest_getInitialStiff
  | RemoteTest_getTangentStiff
  | RemoteTest_getDamp
  | RemoteTest_getMass
  | RemoteTest_DIE.

(* ===================================================================== *)
(** ** The element *)

Record GenericClient := mkGenericClient {
  connectedExternalNodes : ID;
  basicDOF : ID;
  numExternalNodes : Z;
  numDOF : Z;
  numBasicDOF : Z;
  port : Z;
  machineInetAddr : option string;
  ssl : Z;
  udp : Z;
  dataSize : Z;
  addRayleigh : Z;
  theMatrix : Matrix;
  theVector : Vector;
  theLoad : Vector;
  theInitStiff : Matrix;
  theMass : Matrix;
  theChannel : option Channel;
  sData : option Vector;
  sendData : option View;
  rData : option Vector;
  recvData : option View;
  db : option View;
  vb : option View;
  ab : option View;
  t : option View;
  qDaq : option View;
  rMatrix : option MatrixView;
  dbCtrl : Vector;
  vbCtrl : Vector;
  abCtrl : Vector;
  initStiffFlag : bool;
  massFlag : bool;
  theNodes : list (option Z);
  theDOF : list ID;
  theDomain : bool
}.

Definition set_basicDOF (x : ID) (s : GenericClient) : GenericClient :=
  {| connectedExternalNodes := connectedExternalNodes s; basicDOF := x;
     numExternalNodes := numExternalNodes s; numDOF := numDOF s;
     numBasicDOF := numBasicDOF s; port := port s;
     machineInetAddr := machineInetAddr s; ssl := ssl s; udp := udp s;
     dataSize := dataSize s; addRayleigh := addRayleigh s;
     theMatrix := theMatrix s; theVector := theVector s;
     theLoad := theLoad s; theInitStiff := theInitStiff s;
     theMass := theMass s; theChannel := theChannel s; sData := sData s;
     sendData := sendData s; rData := rData s; recvData := recvData s;
     db := db s; vb := vb s; ab := ab s; t := t s; qDaq := qDaq s;
     rMatrix := rMatrix s; dbCtrl := dbCtrl s; vbCtrl := vbCtrl s;
     abCtrl := abCtrl s; initStiffFlag := initStiffFlag s;
     massFlag := massFlag s; theNodes := theNodes s; theDOF := theDOF s;
     theDomain := theDomain s |}.

Definition set_numDOF (x : Z) (s : GenericClient) : GenericClient :=
  {| connectedExternalNodes := connectedExternalNodes s;
     basicDOF := basicDOF s; numExternalNodes := numExternalNodes s;
     numDOF := x; numBasicDOF := numBasicDOF s; port := port s;
     machineInetAddr := machineInetAddr s; ssl := ssl s; udp := udp s;
     dataSize := dataSize s; addRayleigh := addRayleigh s;
     theMatrix := theMatrix s; theVector := theVector s;
     theLoad := theLoad s; theInitStiff := theInitStiff s;
     theMass := theMass s; theChannel := theChannel s; sData := sData s;
     sendData := sendData s; rData := rData s; recvData := recvData s;
     db := db s; vb := vb s; ab := ab s; t := t s; qDaq := qDaq s;
     rMatrix := rMatrix s; dbCtrl := dbCtrl s; vbCtrl := vbCtrl s;
     abCtrl := abCtrl s; initStiffFlag := initStiffFlag s;
     massFlag := massFlag s; theNodes := theNodes s; theDOF := theDOF s;
     theDomain := theDomain s |}.

Definition set_dataSize (x : Z) (s : GenericClient) : GenericClient :=
  {| connectedExternalNodes := connectedExternalNodes s;
     basicDOF := basicDOF s; numExternalNodes := numExternalNodes s;
     numDOF := numDOF s; numBasicDOF := numBasicDOF s; port := port s;
     machineInetAddr := machineInetAddr s; ssl := ssl s; udp := udp s;
     dataSize := x; addRayleigh := addRayleigh s; theMatrix := theMatrix s;
     theVector := theVector s; theLoad := theLoad s;
     theInitStiff := theInitStiff s; theMass := theMass s;
     theChannel := theChannel s; sData := sData s; sendData := sendData s;
     rData := rData s; recvData := recvData s; db := db s; vb := vb s;
     ab := ab s; t := t s; qDaq := qDaq s; rMatrix := rMatrix s;
     dbCtrl := dbCtrl s; vbCtrl := vbCtrl s; abCtrl := abCtrl s;
     initStiffFlag := initStiffFlag s; massFlag := massFlag s;
     theNodes := theNodes s; theDOF := theDOF s; theDomain := theDomain s |}.

Definition set_theMatrix (x : Matrix) (s : GenericClient) : GenericClient :=
  {| connectedExternalNodes := connectedExternalNodes s;
     basicDOF := basicDOF s; numExternalNodes := numExternalNodes s;
     numDOF := numDOF s; numBasicDOF := numBasicDOF s; port := port s;
     machineInetAddr := machineInetAddr s; ssl := ssl s; udp := udp s;
     dataSize := dataSize s; addRayleigh := addRayleigh s; theMatrix := x;
     theVector := theVector s; theLoad := theLoad s;
     theInitStiff := theInitStiff s; theMass := theMass s;
     theChannel := theChannel s; sData := sData s; sendData := sendData s;
     rData := rData s; recvData := recvData s; db := db s; vb := vb s;
     ab := ab s; t := t s; qDaq := qDaq s; rMatrix := rMatrix s;
     dbCtrl := dbCtrl s; vbCtrl := vbCtrl s; abCtrl := abCtrl s;
     initStiffFlag := initStiffFlag s; massFlag := massFlag s;
     theNodes := theNodes s; theDOF := theDOF s; theDomain := theDomain s |}.

Definition set_theVector (x : Vector) (s : GenericClient) : GenericClient :=
  {| connectedExternalNodes := connectedExternalNodes s;
     basicDOF := basicDOF s; numExternalNodes := numExternalNodes s;
     numDOF := numDOF s; numBasicDOF := numBasicDOF s; port := port s;
     machineInetAddr := machineInetAddr s; ssl := ssl s; udp := udp s;
     dataSize := dataSize s; addRayleigh := addRayleigh s;
     theMatrix := theMatrix s; theVector := x; theLoad := theLoad s;
     theInitStiff := theInitStiff s; theMass := theMass s;
     theChannel := theChannel s; sData := sData s; sendData := sendData s;
     rData := rData s; recvData := recvData s; db := db s; vb := vb s;
     ab := ab s; t := t s; qDaq := qDaq s; rMatrix := rMatrix s;
     dbCtrl := dbCtrl s; vbCtrl := vbCtrl s; abCtrl := abCtrl s;
     initStiffFlag := initStiffFlag s; massFlag := massFlag s;
     theNodes := theNodes s; theDOF := theDOF s; theDomain := theDomain s |}.

Definition set_theLoad (x : Vector) (s : GenericClient) : GenericClient :=
  {| connectedExternalNodes := connectedExternalNodes s;
     basicDOF := basicDOF s; numExternalNodes := numExternalNodes s;
     numDOF := numDOF s; numBasicDOF := numBasicDOF s; port := port s;
     machineInetAddr := machineInetAddr s; ssl := ssl s; udp := udp s;
     dataSize := dataSize s; addRayleigh := addRayleigh s;
     theMatrix := theMatrix s; theVector := theVector s; theLoad := x;
     theInitStiff := theInitStiff s; theMass := theMass s;
     theChannel := theChannel s; sData := sData s; sendData := sendData s;
     rData := rData s; recvData := recvData s; db := db s; vb := vb s;
     ab := ab s; t := t s; qDaq := qDaq s; rMatrix := rMatrix s;
     dbCtrl := dbCtrl s; vbCtrl := vbCtrl s; abCtrl := abCtrl s;
     initStiffFlag := initStiffFlag s; massFlag := massFlag s;
     theNodes := theNodes s; theDOF := theDOF s; theDomain := theDomain s |}.

Definition set_theInitStiff (x : Matrix) (s : GenericClient) : GenericClient :=
  {| connectedExternalNodes := connectedExternalNodes s;
     basicDOF := basicDOF s; numExternalNodes := numExternalNodes s;
     numDOF := numDOF s; numBasicDOF := numBasicDOF s; port := port s;
     machineInetAddr := machineInetAddr s; ssl := ssl s; udp := udp s;
     dataSize := dataSize s; addRayleigh := addRayleigh s;
     theMatrix := theMatrix s; theVector := theVector s;
     theLoad := theLoad s; theInitStiff := x; theMass := theMass s;
     theChannel := theChannel s; sData := sData s; sendData := sendData s;
     rData := rData s; recvData := recvData s; db := db s; vb := vb s;
     ab := ab s; t := t s; qDaq := qDaq s; rMatrix := rMatrix s;
     dbCtrl := dbCtrl s; vbCtrl := vbCtrl s; abCtrl := abCtrl s;
     initStiffFlag := initStiffFlag s; massFlag := massFlag s;
     theNodes := theNodes s; theDOF := theDOF s; theDomain := theDomain s |}.

Definition set_theMass (x : Matrix) (s : GenericClient) : GenericClient :=
  {| connectedExternalNodes := connectedExternalNodes s;
     basicDOF := basicDOF s; numExternalNodes := numExternalNodes s;
     numDOF := numDOF s; numBasicDOF := numBasicDOF s; port := port s;
     machineInetAddr := machineInetAddr s; ssl := ssl s; udp := udp s;
     dataSize := dataSize s; addRayleigh := addRayleigh s;
     theMatrix := theMatrix s; theVector := theVector s;
     theLoad := theLoad s; theInitStiff := theInitStiff s; theMass := x;
     theChannel := theChannel s; sData := sData s; sendData := sendData s;
     rData := rData s; recvData := recvData s; db := db s; vb := vb s;
     ab := ab s; t := t s; qDaq := qDaq s; rMatrix := rMatrix s;
     dbCtrl := dbCtrl s; vbCtrl := vbCtrl s; abCtrl := abCtrl s;
     initStiffFlag := initStiffFlag s; massFlag := massFlag s;
     theNodes := theNodes s; theDOF := theDOF s; theDomain := theDomain s |}.

Definition set_theChannel (x : option Channel) (s : GenericClient) : GenericClient :=
  {| connectedExternalNodes := connectedExternalNodes s;
     basicDOF := basicDOF s; numExternalNodes := numExternalNodes s;
     numDOF := numDOF s; numBasicDOF := numBasicDOF s; port := port s;
     machineInetAddr := machineInetAddr s; ssl := ssl s; udp := udp s;
     dataSize := dataSize s; addRayleigh := addRayleigh s;
     theMatrix := theMatrix s; theVector := theVector s;
     theLoad := theLoad s; theInitStiff := theInitStiff s;
     theMass := theMass s; theChannel := x; sData := sData s;
     sendData := sendData s; rData := rData s; recvData := recvData s;
     db := db s; vb := vb s; ab := ab s; t := t s; qDaq := qDaq s;
     rMatrix := rMatrix s; dbCtrl := dbCtrl s; vbCtrl := vbCtrl s;
     abCtrl := abCtrl s; initStiffFlag := initStiffFlag s;
     massFlag := massFlag s; theNodes := theNodes s; theDOF := theDOF s;
     theDomain := theDomain s |}.

Definition set_sData (x : option Vector) (s : GenericClient) : GenericClient :=
  {| connectedExternalNodes := connectedExternalNodes s;
     basicDOF := basicDOF s; numExternalNodes := numExternalNodes s;
     numDOF := numDOF s; numBasicDOF := numBasicDOF s; port := port s;
     machineInetAddr := machineInetAddr s; ssl := ssl s; udp := udp s;
     dataSize := dataSize s; addRayleigh := addRayleigh s;
     theMatrix := theMatrix s; theVector := theVector s;
     theLoad := theLoad s; theInitStiff := theInitStiff s;
     theMass := theMass s; theChannel := theChannel s; sData := x;
     sendData := sendData s; rData := rData s; recvData := recvData s;
     db := db s; vb := vb s; ab := ab s; t := t s; qDaq := qDaq s;
     rMatrix := rMatrix s; dbCtrl := dbCtrl s; vbCtrl := vbCtrl s;
     abCtrl := abCtrl s; initStiffFlag := initStiffFlag s;
     massFlag := massFlag s; theNodes := theNodes s; theDOF := theDOF s;
     theDomain := theDomain s |}.

Definition set_sendData (x : option View) (s : GenericClient) : GenericClient :=
  {| connectedExternalNodes := connectedExternalNodes s;
     basicDOF := basicDOF s; numExternalNodes := numExternalNodes s;
     numDOF := numDOF s; numBasicDOF := numBasicDOF s; port := port s;
     machineInetAddr := machineInetAddr s; ssl := ssl s; udp := udp s;
     dataSize := dataSize s; addRayleigh := addRayleigh s;
     theMatrix := theMatrix s; theVector := theVector s;
     theLoad := theLoad s; theInitStiff := theInitStiff s;
     theMass := theMass s; theChannel := theChannel s; sData := sData s;
     sendData := x; rData := rData s; recvData := recvData s; db := db s;
     vb := vb s; ab := ab s; t := t s; qDaq := qDaq s; rMatrix := rMatrix s;
     dbCtrl := dbCtrl s; vbCtrl := vbCtrl s; abCtrl := abCtrl s;
     initStiffFlag := initStiffFlag s; massFlag := massFlag s;
     theNodes := theNodes s; theDOF := theDOF s; theDomain := theDomain s |}.

Definition set_rData (x : option Vector) (s : GenericClient) : GenericClient :=
  {| connectedExternalNodes := connectedExternalNodes s;
     basicDOF := basicDOF s; numExternalNodes := numExternalNodes s;
     numDOF := numDOF s; numBasicDOF := numBasicDOF s; port := port s;
     machineInetAddr := machineInetAddr s; ssl := ssl s; udp := udp s;
     dataSize := dataSize s; addRayleigh := addRayleigh s;
     theMatrix := theMatrix s; theVector := theVector s;
     theLoad := theLoad s; theInitStiff := theInitStiff s;
     theMass := theMass s; theChannel := theChannel s; sData := sData s;
     sendData := sendData s; rData := x; recvData := recvData s; db := db s;
     vb := vb s; ab := ab s; t := t s; qDaq := qDaq s; rMatrix := rMatrix s;
     dbCtrl := dbCtrl s; vbCtrl := vbCtrl s; abCtrl := abCtrl s;
     initStiffFlag := initStiffFlag s; massFlag := massFlag s;
     theNodes := theNodes s; theDOF := theDOF s; theDomain := theDomain s |}.

Definition set_recvData (x : option View) (s : GenericClient) : GenericClient :=
  {| connectedExternalNodes := connectedExternalNodes s;
     basicDOF := basicDOF s; numExternalNodes := numExternalNodes s;
     numDOF := numDOF s; numBasicDOF := numBasicDOF s; port := port s;
     machineInetAddr := machineInetAddr s; ssl := ssl s; udp := udp s;
     dataSize := dataSize s; addRayleigh := addRayleigh s;
     theMatrix := theMatrix s; theVector := theVector s;
     theLoad := theLoad s; theInitStiff := theInitStiff s;
     theMass := theMass s; theChannel := theChannel s; sData := sData s;
     sendData := sendData s; rData := rData s; recvData := x; db := db s;
     vb := vb s; ab := ab s; t := t s; qDaq := qDaq s; rMatrix := rMatrix s;
     dbCtrl := dbCtrl s; vbCtrl := vbCtrl s; abCtrl := abCtrl s;
     initStiffFlag := initStiffFlag s; massFlag := massFlag s;
     theNodes := theNodes s; theDOF := theDOF s; theDomain := theDomain s |}.

Definition set_db (x : option View) (s : GenericClient) : GenericClient :=
  {| connectedExternalNodes := connectedExternalNodes s;
     basicDOF := basicDOF s; numExternalNodes := numExternalNodes s;
     numDOF := numDOF s; numBasicDOF := numBasicDOF s; port := port s;
     machineInetAddr := machineInetAddr s; ssl := ssl s; udp := udp s;
     dataSize := dataSize s; addRayleigh := addRayleigh s;
     theMatrix := theMatrix s; theVector := theVector s;
     theLoad := theLoad s; theInitStiff := theInitStiff s;
     theMass := theMass s; theChannel := theChannel s; sData := sData s;
     sendData := sendData s; rData := rData s; recvData := recvData s;
     db := x; vb := vb s; ab := ab s; t := t s; qDaq := qDaq s;
     rMatrix := rMatrix s; dbCtrl := dbCtrl s; vbCtrl := vbCtrl s;
     abCtrl := abCtrl s; initStiffFlag := initStiffFlag s;
     massFlag := massFlag s; theNodes := theNodes s; theDOF := theDOF s;
     theDomain := theDomain s |}.

Definition set_vb (x : option View) (s : GenericClient) : GenericClient :=
  {| connectedExternalNodes := connectedExternalNodes s;
     basicDOF := basicDOF s; numExternalNodes := numExternalNodes s;
     numDOF := numDOF s; numBasicDOF := numBasicDOF s; port := port s;
     machineInetAddr := machineInetAddr s; ssl := ssl s; udp := udp s;
     dataSize := dataSize s; addRayleigh := addRayleigh s;
     theMatrix := theMatrix s; theVector := theVector s;
     theLoad := theLoad s; theInitStiff := theInitStiff s;
     theMass := theMass s; theChannel := theChannel s; sData := sData s;
     sendData := sendData s; rData := rData s; recvData := recvData s;
     db := db s; vb := x; ab := ab s; t := t s; qDaq := qDaq s;
     rMatrix := rMatrix s; dbCtrl := dbCtrl s; vbCtrl := vbCtrl s;
     abCtrl := abCtrl s; initStiffFlag := initStiffFlag s;
     massFlag := massFlag s; theNodes := theNodes s; theDOF := theDOF s;
     theDomain := theDomain s |}.

Definition set_ab (x : option View) (s : GenericClient) : GenericClient :=
  {| connectedExternalNodes := connectedExternalNodes s;
     basicDOF := basicDOF s; numExternalNodes := numExternalNodes s;
     numDOF := numDOF s; numBasicDOF := numBasicDOF s; port := port s;
     machineInetAddr := machineInetAddr s; ssl := ssl s; udp := udp s;
     dataSize := dataSize s; addRayleigh := addRayleigh s;
     theMatrix := theMatrix s; theVector := theVector s;
     theLoad := theLoad s; theInitStiff := theInitStiff s;
     theMass := theMass s; theChannel := theChannel s; sData := sData s;
     sendData := sendData s; rData := rData s; recvData := recvData s;
     db := db s; vb := vb s; ab := x; t := t s; qDaq := qDaq s;
     rMatrix := rMatrix s; dbCtrl := dbCtrl s; vbCtrl := vbCtrl s;
     abCtrl := abCtrl s; initStiffFlag := initStiffFlag s;
     massFlag := massFlag s; theNodes := theNodes s; theDOF := theDOF s;
     theDomain := theDomain s |}.

Definition set_t (x : option View) (s : GenericClient) : GenericClient :=
  {| connectedExternalNodes := connectedExternalNodes s;
     basicDOF := basicDOF s; numExternalNodes := numExternalNodes s;
     numDOF := numDOF s; numBasicDOF := numBasicDOF s; port := port s;
     machineInetAddr := machineInetAddr s; ssl := ssl s; udp := udp s;
     dataSize := dataSize s; addRayleigh := addRayleigh s;
     theMatrix := theMatrix s; theVector := theVector s;
     theLoad := theLoad s; theInitStiff := theInitStiff s;
     theMass := theMass s; theChannel := theChannel s; sData := sData s;
     sendData := sendData s; rData := rData s; recvData := recvData s;
     db := db s; vb := vb s; ab := ab s; t := x; qDaq := qDaq s;
     rMatrix := rMatrix s; dbCtrl := dbCtrl s; vbCtrl := vbCtrl s;
     abCtrl := abCtrl s; initStiffFlag := initStiffFlag s;
     massFlag := massFlag s; theNodes := theNodes s; theDOF := theDOF s;
     theDomain := theDomain s |}.

Definition set_qDaq (x : option View) (s : GenericClient) : GenericClient :=
  {| connectedExternalNodes := connectedExternalNodes s;
     basicDOF := basicDOF s; numExternalNodes := numExternalNodes s;
     numDOF := numDOF s; numBasicDOF := numBasicDOF s; port := port s;
     machineInetAddr := machineInetAddr s; ssl := ssl s; udp := udp s;
     dataSize := dataSize s; addRayleigh := addRayleigh s;
     theMatrix := theMatrix s; theVector := theVector s;
     theLoad := theLoad s; theInitStiff := theInitStiff s;
     theMass := theMass s; theChannel := theChannel s; sData := sData s;
     sendData := sendData s; rData := rData s; recvData := recvData s;
     db := db s; vb := vb s; ab := ab s; t := t s; qDaq := x;
     rMatrix := rMatrix s; dbCtrl := dbCtrl s; vbCtrl := vbCtrl s;
     abCtrl := abCtrl s; initStiffFlag := initStiffFlag s;
     massFlag := massFlag s; theNodes := theNodes s; theDOF := theDOF s;
     theDomain := theDomain s |}.

Definition set_rMatrix (x : option MatrixView) (s : GenericClient) : GenericClient :=
  {| connectedExternalNodes := connectedExternalNodes s;
     basicDOF := basicDOF s; numExternalNodes := numExternalNodes s;
     numDOF := numDOF s; numBasicDOF := numBasicDOF s; port := port s;
     machineInetAddr := machineInetAddr s; ssl := ssl s; udp := udp s;
     dataSize := dataSize s; addRayleigh := addRayleigh s;
     theMatrix := theMatrix s; theVector := theVector s;
     theLoad := theLoad s; theInitStiff := theInitStiff s;
     theMass := theMass s; theChannel := theChannel s; sData := sData s;
     sendData := sendData s; rData := rData s; recvData := recvData s;
     db := db s; vb := vb s; ab := ab s; t := t s; qDaq := qDaq s;
     rMatrix := x; dbCtrl := dbCtrl s; vbCtrl := vbCtrl s;
     abCtrl := abCtrl s; initStiffFlag := initStiffFlag s;
     massFlag := massFlag s; theNodes := theNodes s; theDOF := theDOF s;
     theDomain := theDomain s |}.

Definition set_dbCtrl (x : Vector) (s : GenericClient) : GenericClient :=
  {| connectedExternalNodes := connectedExternalNodes s;
     basicDOF := basicDOF s; numExternalNodes := numExternalNodes s;
     numDOF := numDOF s; numBasicDOF := numBasicDOF s; port := port s;
     machineInetAddr := machineInetAddr s; ssl := ssl s; udp := udp s;
     dataSize := dataSize s; addRayleigh := addRayleigh s;
     theMatrix := theMatrix s; theVector := theVector s;
     theLoad := theLoad s; theInitStiff := theInitStiff s;
     theMass := theMass s; theChannel := theChannel s; sData := sData s;
     sendData := sendData s; rData := rData s; recvData := recvData s;
     db := db s; vb := vb s; ab := ab s; t := t s; qDaq := qDaq s;
     rMatrix := rMatrix s; dbCtrl := x; vbCtrl := vbCtrl s;
     abCtrl := abCtrl s; initStiffFlag := initStiffFlag s;
     massFlag := massFlag s; theNodes := theNodes s; theDOF := theDOF s;
     theDomain := theDomain s |}.

Definition set_vbCtrl (x : Vector) (s : GenericClient) : GenericClient :=
  {| connectedExternalNodes := connectedExternalNodes s;
     basicDOF := basicDOF s; numExternalNodes := numExternalNodes s;
     numDOF := numDOF s; numBasicDOF := numBasicDOF s; port := port s;
     machineInetAddr := machineInetAddr s; ssl := ssl s; udp := udp s;
     dataSize := dataSize s; addRayleigh := addRayleigh s;
     theMatrix := theMatrix s; theVector := theVector s;
     theLoad := theLoad s; theInitStiff := theInitStiff s;
     theMass := theMass s; theChannel := theChannel s; sData := sData s;
     sendData := sendData s; rData := rData s; recvData := recvData s;
     db := db s; vb := vb s; ab := ab s; t := t s; qDaq := qDaq s;
     rMatrix := rMatrix s; dbCtrl := dbCtrl s; vbCtrl := x;
     abCtrl := abCtrl s; initStiffFlag := initStiffFlag s;
     massFlag := massFlag s; theNodes := theNodes s; theDOF := theDOF s;
     theDomain := theDomain s |}.

Definition set_abCtrl (x : Vector) (s : GenericClient) : GenericClient :=
  {| connectedExternalNodes := connectedExternalNodes s;
     basicDOF := basicDOF s; numExternalNodes := numExternalNodes s;
     numDOF := numDOF s; numBasicDOF := numBasicDOF s; port := port s;
     machineInetAddr := machineInetAddr s; ssl := ssl s; udp := udp s;
     dataSize := dataSize s; addRayleigh := addRayleigh s;
     theMatrix := theMatrix s; theVector := theVector s;
     theLoad := theLoad s; theInitStiff := theInitStiff s;
     theMass := theMass s; theChannel := theChannel s; sData := sData s;
     sendData := sendData s; rData := rData s; recvData := recvData s;
     db := db s; vb := vb s; ab := ab s; t := t s; qDaq := qDaq s;
     rMatrix := rMatrix s; dbCtrl := dbCtrl s; vbCtrl := vbCtrl s;
     abCtrl := x; initStiffFlag := initStiffFlag s; massFlag := massFlag s;
     theNodes := theNodes s; theDOF := theDOF s; theDomain := theDomain s |}.

Definition set_initStiffFlag (x : bool) (s : GenericClient) : GenericClient :=
  {| connectedExternalNodes := connectedExternalNodes s;
     basicDOF := basicDOF s; numExternalNodes := numExternalNodes s;
     numDOF := numDOF s; numBasicDOF := numBasicDOF s; port := port s;
     machineInetAddr := machineInetAddr s; ssl := ssl s; udp := udp s;
     dataSize := dataSize s; addRayleigh := addRayleigh s;
     theMatrix := theMatrix s; theVector := theVector s;
     theLoad := theLoad s; theInitStiff := theInitStiff s;
     theMass := theMass s; theChannel := theChannel s; sData := sData s;
     sendData := sendData s; rData := rData s; recvData := recvData s;
     db := db s; vb := vb s; ab := ab s; t := t s; qDaq := qDaq s;
     rMatrix := rMatrix s; dbCtrl := dbCtrl s; vbCtrl := vbCtrl s;
     abCtrl := abCtrl s; initStiffFlag := x; massFlag := massFlag s;
     theNodes := theNodes s; theDOF := theDOF s; theDomain := theDomain s |}.

Definition set_massFlag (x : bool) (s : GenericClient) : GenericClient :=
  {| connectedExternalNodes := connectedExternalNodes s;
     basicDOF := basicDOF s; numExternalNodes := numExternalNodes s;
     numDOF := numDOF s; numBasicDOF := numBasicDOF s; port := port s;
     machineInetAddr := machineInetAddr s; ssl := ssl s; udp := udp s;
     dataSize := dataSize s; addRayleigh := addRayleigh s;
     theMatrix := theMatrix s; theVector := theVector s;
     theLoad := theLoad s; theInitStiff := theInitStiff s;
     theMass := theMass s; theChannel := theChannel s; sData := sData s;
     sendData := sendData s; rData := rData s; recvData := recvData s;
     db := db s; vb := vb s; ab := ab s; t := t s; qDaq := qDaq s;
     rMatrix := rMatrix s; dbCtrl := dbCtrl s; vbCtrl := vbCtrl s;
     abCtrl := abCtrl s; initStiffFlag := initStiffFlag s; massFlag := x;
     theNodes := theNodes s; theDOF := theDOF s; theDomain := theDomain s |}.

Definition set_theNodes (x : list (option Z)) (s : GenericClient) : GenericClient :=
  {| connectedExternalNodes := connectedExternalNodes s;
     basicDOF := basicDOF s; numExternalNodes := numExternalNodes s;
     numDOF := numDOF s; numBasicDOF := numBasicDOF s; port := port s;
     machineInetAddr := machineInetAddr s; ssl := ssl s; udp := udp s;
     dataSize := dataSize s; addRayleigh := addRayleigh s;
     theMatrix := theMatrix s; theVector := theVector s;
     theLoad := theLoad s; theInitStiff := theInitStiff s;
     theMass := theMass s; theChannel := theChannel s; sData := sData s;
     sendData := sendData s; rData := rData s; recvData := recvData s;
     db := db s; vb := vb s; ab := ab s; t := t s; qDaq := qDaq s;
     rMatrix := rMatrix s; dbCtrl := dbCtrl s; vbCtrl := vbCtrl s;
     abCtrl := abCtrl s; initStiffFlag := initStiffFlag s;
     massFlag := massFlag s; theNodes := x; theDOF := theDOF s;
     theDomain := theDomain s |}.

Definition set_theDomain (x : bool) (s : GenericClient) : GenericClient :=
  {| connectedExternalNodes := connectedExternalNodes s;
     basicDOF := basicDOF s; numExternalNodes := numExternalNodes s;
     numDOF := numDOF s; numBasicDOF := numBasicDOF s; port := port s;
     machineInetAddr := machineInetAddr s; ssl := ssl s; udp := udp s;
     dataSize := dataSize s; addRayleigh := addRayleigh s;
     theMatrix := theMatrix s; theVector := theVector s;
     theLoad := theLoad s; theInitStiff := theInitStiff s;
     theMass := theMass s; theChannel := theChannel s; sData := sData s;
     sendData := sendData s; rData := rData s; recvData := recvData s;
     db := db s; vb := vb s; ab := ab s; t := t s; qDaq := qDaq s;
     rMatrix := rMatrix s; dbCtrl := dbCtrl s; vbCtrl := vbCtrl s;
     abCtrl := abCtrl s; initStiffFlag := initStiffFlag s;
     massFlag := massFlag s; theNodes := theNodes s; theDOF := theDOF s;
     theDomain := x |}.

Definition buffer (b : Buffer) (s : GenericClient) : option Vector :=
  match b with SData => sData s | RData => rData s end.

Definition set_buffer (b : Buffer) (x : Vector) (s : GenericClient)
  : GenericClient :=
  match b with
  | SData => set_sData (Some x) s
  | RData => set_rData (Some x) s
  end.

(** The vector viewed by [p]. *)
Definition view_get (p : option View) (s : GenericClient) : Outcome Vector :=
  v ← deref p;
  buf ← deref (buffer (vbase v) s);
  slice (voff v) (vlen v) buf.

(** The vector viewed by [p] is replaced by its image under [f], which
    keeps the size. *)
Definition view_update (p : option View) (f : Vector -> Vector)
    (s : GenericClient) : Outcome GenericClient :=
  v ← deref p;
  buf ← deref (buffer (vbase v) s);
  old ← slice (voff v) (vlen v) buf;
  buf' ← blit (voff v) (f old) buf;
  Done (set_buffer (vbase v) buf' s).

(** The matrix viewed by [p]. *)
Definition mview_get (p : option MatrixView) (s : GenericClient)
  : Outcome Matrix :=
  v ← deref p;
  buf ← deref (buffer (mbase v) s);
  matrix_of (mrows v) (mcols v) buf.

(** [p->Zero()] for a matrix view [p]. *)
Definition mview_Zero (p : option MatrixView) (s : GenericClient)
  : Outcome GenericClient :=
  v ← deref p;
  buf ← deref (buffer (mbase v) s);
  buf' ← blit 0 (Vector_new (mrows v * mcols v)) buf;
  Done (set_buffer (mbase v) buf' s).

(** [sData[i] = x]. *)
Definition sData_store (i : Z) (x : double) (s : GenericClient)
  : Outcome GenericClient :=
  buf ← deref (sData s);
  buf' ← store i x buf;
  Done (set_sData (Some buf') s).

(** [theChannel->setUpConnection()]. *)
Definition theChannel_setUpConnection (s : GenericClient)
  : Outcome (Z * GenericClient) :=
  ch ← deref (theChannel s);
  let r := Channel_setUpConnection ch in
  Done (r.1, set_theChannel (Some r.2) s).

(** [theChannel->sendID(0, 0, data, 0)]. *)
Definition theChannel_sendID (data : ID) (s : GenericClient)
  : Outcome (Z * GenericClient) :=
  ch ← deref (theChannel s);
  let r := Channel_sendID ch data in
  Done (r.1, set_theChannel (Some r.2) s).

(** [theChannel->sendVector] of the vector viewed by [p]. *)
Definition theChannel_sendVector (p : option View) (s : GenericClient)
  : Outcome (Z * GenericClient) :=
  ch ← deref (theChannel s);
  data ← view_get p s;
  let r := Channel_sendVector ch data in
  Done (r.1, set_theChannel (Some r.2) s).

(** [theChannel->recvVector] into the vector viewed by [p]. *)
Definition theChannel_recvVector (p : option View) (s : GenericClient)
  : Outcome (Z * GenericClient) :=
  ch ← deref (theChannel s);
  dest ← view_get p s;
  let r := Channel_recvVector ch dest in
  s ← view_update p (fun _ => r.1.2) s;
  Done (r.1.1, set_theChannel (Some r.2) s).

(** The members a getter hands out by reference. *)
Inductive MatrixRef := ref_theMatrix | ref_theInitStiff | ref_theMass.
Inductive VectorRef := ref_theVector.

Definition matrix_at (r : MatrixRef) (s : GenericClient) : Matrix :=
  match r with
  | ref_theMatrix => theMatrix s
  | ref_theInitStiff => theInitStiff s
  | ref_theMass => theMass s
  end.

Definition vector_at (r : VectorRef) (s : GenericClient) : Vector :=
  match r with ref_theVector => theVector s end.

(** What the element takes from code outside its own file: the values of
    the [RemoteTest_] macros, whether the build defines [SSL], the status of
    the base-class commit and the Rayleigh damping matrix of the base
    class ("a classical Rayleigh contribution computed by the external
    domain"). *)
Record Collaborators := mkCollaborators {
  code : RemoteTest -> double;
  SSL : bool;
  Element_commitState : Z;
  Element_getDamp : GenericClient -> Matrix
}.

(** [GenericClient::GenericClient(tag, nodes, dof, port, machineinetaddr,
    ssl, udp, datasize, addRay)].  [dof] is the array of the per-node DOF
    selections; reading it past its end is undefined. *)
Definition GenericClient_new (nodes_ : ID) (dof : list ID) (_port : Z)
    (machineinetaddr : option string) (_ssl _udp datasize addRay : Z)
  : Outcome GenericClient :=
  let numExternalNodes_ := ID_Size nodes_ in
  (* theNodes = new Node* [numExternalNodes], all set to 0 *)
  let theNodes_ := replicate (Z.to_nat numExternalNodes_) None in
  (* theDOF = new ID [numExternalNodes] *)
  '(theDOF_, numBasicDOF_) ←
    for_upto numExternalNodes_
      (fun i '(td, nb) =>
         d ← index dof i;
         td ← assign td (Z.of_nat i) d;
         Done (td, nb + ID_Size d))
      (replicate (Z.to_nat numExternalNodes_) [], 0);
  Done {| connectedExternalNodes := nodes_;
          basicDOF := ID_Zero (ID_resize numBasicDOF_ (ID_new 1));
          numExternalNodes := numExternalNodes_;
          numDOF := 0;
          numBasicDOF := numBasicDOF_;
          port := _port;
          machineInetAddr := machineinetaddr;
          ssl := _ssl;
          udp := _udp;
          dataSize := datasize;
          addRayleigh := addRay;
          theMatrix := Matrix_new 1 1;
          theVector := Vector_new 1;
          theLoad := Vector_new 1;
          theInitStiff := Matrix_new 1 1;
          theMass := Matrix_new 1 1;
          theChannel := None;
          sData := None; sendData := None; rData := None; recvData := None;
          db := None; vb := None; ab := None; t := None;
          qDaq := None; rMatrix := None;
          dbCtrl := Vector_Zero (Vector_resize numBasicDOF_ (Vector_new 1));
          vbCtrl := Vector_Zero (Vector_resize numBasicDOF_ (Vector_new 1));
          abCtrl := Vector_Zero (Vector_resize numBasicDOF_ (Vector_new 1));
          initStiffFlag := false;
          massFlag := false;
          theNodes := theNodes_;
          theDOF := theDOF_;
          theDomain := false |}.

(** [GenericClient::GenericClient()], the blank element that [recvSelf]
    fills in; its node and DOF arrays are null, which with no external
    node is an array of no entries. *)
Definition GenericClient_default : GenericClient :=
  {| connectedExternalNodes := ID_new 1;
     basicDOF := ID_new 1;
     numExternalNodes := 0;
     numDOF := 0;
     numBasicDOF := 0;
     port := 0;
     machineInetAddr := None;
     ssl := 0;
     udp := 0;
     dataSize := 0;
     addRayleigh := 0;
     theMatrix := Matrix_new 1 1;
     theVector := Vector_new 1;
     theLoad := Vector_new 1;
     theInitStiff := Matrix_new 1 1;
     theMass := Matrix_new 1 1;
     theChannel := None;
     sData := None; sendData := None; rData := None; recvData := None;
     db := None; vb := None; ab := None; t := None;
     qDaq := None; rMatrix := None;
     dbCtrl := Vector_new 1;
     vbCtrl := Vector_new 1;
     abCtrl := Vector_new 1;
     initStiffFlag := false;
     massFlag := false;
     theNodes := [];
     theDOF := [];
     theDomain := false |}.

(** The inner loop of the DOF mapper:
    [for (j = 0; j < theDOF[i].Size(); j++) { basicDOF(k) = ndf + theDOF[i](j); k++; }]. *)
Definition setDomain_basicDOF_node (ndf : Z) (dofs : ID) (st : ID * Z)
  : Outcome (ID * Z) :=
  for_upto (ID_Size dofs)
    (fun j '(bd, k) =>
       d ← index dofs j;
       bd ← assign bd k (ndf + d);
       Done (bd, k + 1))
    st.

(** The DOF mapper: the loop of [setDomain] that sets the basicDOF ID. *)
Definition setDomain_basicDOF (dom : Domain) (s : GenericClient)
  : Outcome (ID * Z * Z) :=
  for_upto (numExternalNodes s)
    (fun i '(bd, k, ndf) =>
       dofs ← index (theDOF s) i;
       '(bd, k) ← setDomain_basicDOF_node ndf dofs (bd, k);
       p ← index (theNodes s) i;
       nd ← node_at dom p;
       Done (bd, k, ndf + getNumberDOF nd))
    (basicDOF s, 0, 0).

(** [GenericClient::setDomain(Domain *theDomain)]. *)
Definition setDomain (theDomain_ : option Domain) (s : GenericClient)
  : Outcome GenericClient :=
  match theDomain_ with
  | None =>
      (* invoked when the object is removed from a domain *)
      for_upto (numExternalNodes s)
        (fun i s =>
           tn ← assign (theNodes s) (Z.of_nat i) None;
           Done (set_theNodes tn s))
        s
  | Some dom =>
      (* first set the node pointers *)
      s ← for_upto (numExternalNodes s)
            (fun i s =>
               tag ← index (connectedExternalNodes s) i;
               tn ← assign (theNodes s) (Z.of_nat i) (Domain_getNode dom tag);
               Done (set_theNodes tn s))
            s;
      (* if can't find all - send a warning message and return *)
      missing ← for_upto (numExternalNodes s)
                  (fun i found =>
                     p ← index (theNodes s) i;
                     Done (found || bool_decide (p = None)))
                  false;
      if missing : bool then Done s else
      (* now determine the number of dof *)
      numDOF_ ← for_upto (numExternalNodes s)
                  (fun i acc =>
                     p ← index (theNodes s) i;
                     nd ← node_at dom p;
                     Done (acc + getNumberDOF nd))
                  0;
      let s := set_numDOF numDOF_ s in
      (* set the basicDOF ID *)
      '(bd, _, _) ← setDomain_basicDOF dom s;
      let s := set_basicDOF bd s in
      (* set the matrix and vector sizes and zero them *)
      let n := numDOF s in
      let s := set_theMatrix (Matrix_Zero (Matrix_resize n n (theMatrix s))) s in
      let s := set_theVector (Vector_Zero (Vector_resize n (theVector s))) s in
      let s := set_theLoad (Vector_Zero (Vector_resize n (theLoad s))) s in
      let s := set_theInitStiff
                 (Matrix_Zero (Matrix_resize n n (theInitStiff s))) s in
      let s := set_theMass (Matrix_Zero (Matrix_resize n n (theMass s))) s in
      (* call the base class method *)
      Done (set_theDomain true s)
  end.

(** [GenericClient::revertToLastCommit()] and [revertToStart()]. *)
Definition revertToLastCommit (s : GenericClient) : Z * GenericClient :=
  (-1, s).
Definition revertToStart (s : GenericClient) : Z * GenericClient := (-1, s).

(** [GenericClient::zeroLoad()]. *)
Definition zeroLoad (s : GenericClient) : GenericClient :=
  set_theLoad (Vector_Zero (theLoad s)) s.


(** [GenericClient::getNumExternalNodes()], [getExternalNodes()] and
    [getNumDOF()]. *)
Definition getNumExternalNodes (s : GenericClient) : Z := numExternalNodes s.
Definition getExternalNodes (s : GenericClient) : ID :=
  connectedExternalNodes s.
Definition getNumDOF (s : GenericClient) : Z := numDOF s.

(** [GenericClient::addLoad(ElementalLoad*, double)]. *)
Definition addLoad (s : GenericClient) : Z * GenericClient := (-1, s).


(** What [getResponse] does with [eleInfo]: it returns the status of
    [eleInfo.setVector(v)], or -1 without touching [eleInfo]. *)
Inductive Reported :=
  | setVector (v : Vector)
  | minus_one.

Section Client.

Context (ext : Collaborators).

(** [GenericClient::setupConnection()]. *)
Definition setupConnection (remote : Remote) (s : GenericClient)
  : Outcome (Z * GenericClient) :=
  (* setup the connection *)
  let addr := default "127.0.0.1"%string (machineInetAddr s) in
  let kind :=
    if decide (udp s ≠ 0) then UDP_Socket
    else if SSL ext && bool_decide (ssl s ≠ 0) then TCP_SocketSSL
    else TCP_Socket in
  let s := set_theChannel (Some (Channel_new kind (port s) addr remote)) s in
  '(rc, s) ← theChannel_setUpConnection s;
  if decide (rc ≠ 0) then Done (-2, s) else
  (* set the data size for the experimental element *)
  let idData := ID_Zero (ID_new (2*5+1)) in
  idData ← assign idData 0 (numBasicDOF s);
  idData ← assign idData 1 (numBasicDOF s);
  idData ← assign idData 2 (numBasicDOF s);
  idData ← assign idData 4 1;
  idData ← assign idData 8 (numBasicDOF s);
  let s := if decide (dataSize s < 1+3*numBasicDOF s+1)
           then set_dataSize (1+3*numBasicDOF s+1) s else s in
  let s := if decide (dataSize s < numBasicDOF s * numBasicDOF s)
           then set_dataSize (numBasicDOF s * numBasicDOF s) s else s in
  idData ← assign idData 10 (dataSize s);
  '(_, s) ← theChannel_sendID idData s;
  (* allocate memory for the send vectors *)
  let id := 1 in
  let s := set_sData (Some (Vector_new (dataSize s))) s in
  let s := set_sendData (Some (mkView SData 0 (dataSize s))) s in
  let s := set_db (Some (mkView SData id (numBasicDOF s))) s in
  let id := id + numBasicDOF s in
  let s := set_vb (Some (mkView SData id (numBasicDOF s))) s in
  let id := id + numBasicDOF s in
  let s := set_ab (Some (mkView SData id (numBasicDOF s))) s in
  let id := id + numBasicDOF s in
  let s := set_t (Some (mkView SData id 1)) s in
  s ← view_update (sendData s) Vector_Zero s;
  (* allocate memory for the receive vectors *)
  let id := 0 in
  let s := set_rData (Some (Vector_new (dataSize s))) s in
  let s := set_recvData (Some (mkView RData 0 (dataSize s))) s in
  let s := set_qDaq (Some (mkView RData id (numBasicDOF s))) s in
  s ← view_update (recvData s) Vector_Zero s;
  (* allocate memory for the receive matrix *)
  let s := set_rMatrix
             (Some (mkMatrixView RData (numBasicDOF s) (numBasicDOF s))) s in
  Done (0, s).

(** [GenericClient::~GenericClient()]: the result is the channel as it is
    when it is released. *)
Definition GenericClient_delete (s : GenericClient)
  : Outcome (option Channel) :=
  (* terminate remote process *)
  match theChannel s with
  | Some _ =>
      s ← sData_store 0 (code ext RemoteTest_DIE) s;
      '(_, s) ← theChannel_sendVector (sendData s) s;
      Done (theChannel s)
  | None => Done None
  end.

(** [GenericClient::commitState()]. *)
Definition commitState (s : GenericClient) : Outcome (Z * GenericClient) :=
  let rValue := 0 in
  (* commit remote element *)
  s ← sData_store 0 (code ext RemoteTest_commitState) s;
  '(rc, s) ← theChannel_sendVector (sendData s) s;
  let rValue := rValue + rc in
  (* commit the base class *)
  let rValue := rValue + Element_commitState ext in
  Done (rValue, s).

(** [GenericClient::update()]; [dom] is the domain the element is attached
    to, as it is at the time of the call. *)
Definition update (remote : Remote) (dom : Domain) (s : GenericClient)
  : Outcome (Z * GenericClient) :=
  let rValue := 0 in
  '(rc, s) ← match theChannel s with
             | None => setupConnection remote s
             | Some _ => Done (0, s)
             end;
  if decide (rc ≠ 0) then Done (-1, s) else
  (* get current time *)
  _ ← (if theDomain s then Done () else Undefined NullPointer);
  s ← view_update (t s) (fun v => <[0%nat := getCurrentTime dom]> v) s;
  (* assemble response vectors *)
  s ← view_update (db s) Vector_Zero s;
  s ← view_update (vb s) Vector_Zero s;
  s ← view_update (ab s) Vector_Zero s;
  '(s, _) ←
    for_upto (numExternalNodes s)
      (fun i '(s, ndim) =>
         p ← index (theNodes s) i;
         nd ← node_at dom p;
         dofs ← index (theDOF s) i;
         let disp := getTrialDisp nd in
         let vel := getTrialVel nd in
         let accel := getTrialAccel nd in
         s ← view_update (db s)
               (Vector_AssembleAt (Vector_select disp dofs) ndim) s;
         s ← view_update (vb s)
               (Vector_AssembleAt (Vector_select vel dofs) ndim) s;
         s ← view_update (ab s)
               (Vector_AssembleAt (Vector_select accel dofs) ndim) s;
         Done (s, ndim + ID_Size dofs))
      (s, 0);
  (* set trial response at remote element *)
  s ← sData_store 0 (code ext RemoteTest_setTrialResponse) s;
  '(rc, s) ← theChannel_sendVector (sendData s) s;
  let rValue := rValue + rc in
  Done (rValue, s).


(** [GenericClient::getInitialStiff()]. *)
Definition getInitialStiff (s : GenericClient)
  : Outcome (MatrixRef * GenericClient) :=
  if initStiffFlag s then Done (ref_theInitStiff, s) else
  (* zero the matrices *)
  let s := set_theInitStiff (Matrix_Zero (theInitStiff s)) s in
  s ← mview_Zero (rMatrix s) s;
  (* get initial stiffness from remote element *)
  s ← sData_store 0 (code ext RemoteTest_getInitialStiff) s;
  '(_, s) ← theChannel_sendVector (sendData s) s;
  '(_, s) ← theChannel_recvVector (recvData s) s;
  R ← mview_get (rMatrix s) s;
  let s := set_theInitStiff
             (Matrix_Assemble R (basicDOF s) (basicDOF s) (theInitStiff s))
             s in
  let s := set_initStiffFlag true s in
  Done (ref_theInitStiff, s).


(** [GenericClient::getMass()]. *)
Definition getMass (s : GenericClient)
  : Outcome (MatrixRef * GenericClient) :=
  if massFlag s then Done (ref_theMass, s) else
  (* zero the matrices *)
  let s := set_theMass (Matrix_Zero (theMass s)) s in
  s ← mview_Zero (rMatrix s) s;
  (* get mass matrix from remote element *)
  s ← sData_store 0 (code ext RemoteTest_getMass) s;
  '(_, s) ← theChannel_sendVector (sendData s) s;
  '(_, s) ← theChannel_recvVector (recvData s) s;
  R ← mview_get (rMatrix s) s;
  let s := set_theMass
             (Matrix_Assemble R (basicDOF s) (basicDOF s) (theMass s)) s in
  let s := set_massFlag true s in
  Done (ref_theMass, s).

(** [GenericClient::getResistingForce()]. *)
Definition getResistingForce (s : GenericClient)
  : Outcome (VectorRef * GenericClient) :=
  (* zero the residual *)
  let s := set_theVector (Vector_Zero (theVector s)) s in
  (* get resisting forces from remote element *)
  s ← sData_store 0 (code ext RemoteTest_getForce) s;
  '(_, s) ← theChannel_sendVector (sendData s) s;
  '(_, s) ← theChannel_recvVector (recvData s) s;
  (* save corresponding ctrl response for recorder *)
  dbv ← view_get (db s) s;
  let s := set_dbCtrl dbv s in
  vbv ← view_get (vb s) s;
  let s := set_vbCtrl vbv s in
  abv ← view_get (ab s) s;
  let s := set_abCtrl abv s in
  (* determine resisting forces in global system *)
  q ← view_get (qDaq s) s;
  let s := set_theVector (Vector_Assemble q (basicDOF s) (theVector s)) s in
  Done (ref_theVector, s).




(** [GenericClient::getResponse(int responseID, Information &eleInfo)]. *)
Definition getResponse (responseID : Z) (s : GenericClient)
  : Outcome (Reported * GenericClient) :=
  if decide (responseID = 1) then
    (* global forces *)
    '(r, s) ← getResistingForce s; Done (setVector (vector_at r s), s)
  else if decide (responseID = 2) then
    (* local forces *)
    '(r, s) ← getResistingForce s; Done (setVector (vector_at r s), s)
  else if decide (responseID = 3) then
    (* basic forces *)
    q ← view_get (qDaq s) s; Done (setVector q, s)
  else if decide (responseID = 4) then
    (* ctrl basic displacements *)
    Done (setVector (dbCtrl s), s)
  else if decide (responseID = 5) then
    (* ctrl basic velocities *)
    Done (setVector (vbCtrl s), s)
  else if decide (responseID = 6) then
    (* ctrl basic accelerations *)
    Done (setVector (abCtrl s), s)
  else Done (minus_one, s).

End Client.

(* ===================================================================== *)
(** * Specification *)

Definition sumZ (l : list Z) : Z := foldr Z.add 0 l.

(** The Basic DOF Index Set as the data model describes it: walking the
    nodes in order, the selected local indices of a node shifted by the
    total DOF count of the nodes before it. *)
Fixpoint basicDOF_of (offset : Z) (sel : list ID) (ndf : list Z) : ID :=
  match sel, ndf with
  | d :: sel', n :: ndf' =>
      ((fun x => offset + x) <$> d) ++ basicDOF_of (offset + n) sel' ndf'
  | _, _ => []
  end.

(** The class invariant that the constructor establishes. *)
Record Built (s : GenericClient) : Prop := {
  built_numExternalNodes :
    numExternalNodes s = ID_Size (connectedExternalNodes s);
  built_theNodes : length (theNodes s) = length (connectedExternalNodes s);
  built_theDOF : length (theDOF s) = length (connectedExternalNodes s);
  built_numBasicDOF : numBasicDOF s = sumZ (ID_Size <$> theDOF s);
  built_basicDOF : ID_Size (basicDOF s) = numBasicDOF s
}.

(** The domain holds node [nds !! i] under tag [tags !! i]. *)
Definition Resolved (dom : Domain) (tags : ID) (nds : list Node) : Prop :=
  Forall2 (fun tag nd => nodes dom !! tag = Some nd) tags nds.

(** Every selected local index is a DOF of its node. *)
Definition ValidSelection (sel : list ID) (nds : list Node) : Prop :=
  Forall2 (fun dofs nd => Forall (fun d => 0 <= d < getNumberDOF nd) dofs)
          sel nds.

(** The element with the members that [setDomain] writes blanked out. *)
Definition attach_erase (s : GenericClient) : GenericClient :=
  set_theNodes [] (set_numDOF 0 (set_basicDOF [] (set_theMatrix []
    (set_theVector [] (set_theLoad [] (set_theInitStiff [] (set_theMass []
      (set_theDomain false s)))))))).

(** The element with the channel and the two buffers blanked out. *)
Definition io_erase (s : GenericClient) : GenericClient :=
  set_theChannel None (set_sData None (set_rData None s)).

(** State Unconnected: no connection was ever set up. *)
Record Unconnected (s : GenericClient) : Prop := {
  unconn_theChannel : theChannel s = None;
  unconn_sData : sData s = None;
  unconn_sendData : sendData s = None;
  unconn_rData : rData s = None;
  unconn_recvData : recvData s = None;
  unconn_rMatrix : rMatrix s = None;
  unconn_db : db s = None;
  unconn_vb : vb s = None;
  unconn_ab : ab s = None;
  unconn_t : t s = None;
  unconn_qDaq : qDaq s = None;
  unconn_initStiffFlag : initStiffFlag s = false;
  unconn_massFlag : massFlag s = false
}.

(** State Connected: what a successful [setupConnection] leaves behind. *)
Record Connected (s : GenericClient) : Prop := {
  conn_theChannel : is_Some (theChannel s);
  conn_numBasicDOF : 0 <= numBasicDOF s;
  conn_ctrl : 1 + 3 * numBasicDOF s + 1 <= dataSize s;
  conn_daq : numBasicDOF s * numBasicDOF s <= dataSize s;
  conn_sData :
    exists buf, sData s = Some buf /\ Z.of_nat (length buf) = dataSize s;
  conn_rData :
    exists buf, rData s = Some buf /\ Z.of_nat (length buf) = dataSize s;
  conn_sendData : sendData s = Some (mkView SData 0 (dataSize s));
  conn_db : db s = Some (mkView SData 1 (numBasicDOF s));
  conn_vb : vb s = Some (mkView SData (1 + numBasicDOF s) (numBasicDOF s));
  conn_ab :
    ab s = Some (mkView SData (1 + numBasicDOF s + numBasicDOF s)
                        (numBasicDOF s));
  conn_t :
    t s = Some (mkView SData
                       (1 + numBasicDOF s + numBasicDOF s + numBasicDOF s) 1);
  conn_recvData : recvData s = Some (mkView RData 0 (dataSize s));
  conn_qDaq : qDaq s = Some (mkView RData 0 (numBasicDOF s));
  conn_rMatrix :
    rMatrix s = Some (mkMatrixView RData (numBasicDOF s) (numBasicDOF s))
}.

(** The element is attached to [dom], where its node pointers lead to the
    nodes [nds], in order. *)
Record Attached (dom : Domain) (s : GenericClient) (nds : list Node)
  : Prop := {
  att_theDomain : theDomain s = true;
  att_numExternalNodes : numExternalNodes s = Z.of_nat (length nds);
  att_theDOF : length (theDOF s) = length nds;
  att_theNodes :
    Forall2 (fun p nd => exists tag,
                 p = Some tag /\ nodes dom !! tag = Some nd)
            (theNodes s) nds
}.

(** The basic-space vector that [update] assembles from the nodal
    response [get]: node after node, the selected entries, each added to
    the zero that [Zero()] left there. *)
Definition pushed (get : Node -> Vector) (sel : list ID) (nds : list Node)
  : Vector :=
  concat (zip_with
            (fun dofs nd =>
               PrimFloat.add dzero <$> Vector_select (get nd) dofs)
            sel nds).

(** The calls made on the channel of the element so far. *)
Definition calls_of (s : GenericClient) : list Call :=
  match theChannel s with
  | Some ch => calls ch
  | None => []
  end.

(** The message that carries command [cmd]: the transmit buffer [buf] with
    the command code written to its first entry. *)
Definition message (cmd : double) (buf : Vector) : Vector := <[0%nat := cmd]> buf.

(** One round trip of a query on an element whose transmit buffer is
    [buf] and whose buffers hold [size] numbers: the command goes out,
    then the reply is read. *)
Definition round_trip (cmd : double) (buf : Vector) (size : Z) : list Call :=
  [sendVector (message cmd buf); recvVector size].

(** ** A small model used as a concrete instance *)

Definition node_1 : Node :=
  mkNode 3 [1; 2; 3]%float [0.25; 0; 0]%float [0; 0; 0.125]%float.
Definition node_2 : Node :=
  mkNode 3 [4; 5; 6]%float [0.5; 0; 0]%float [0; 0; 0.75]%float.

(** Two nodes with three DOF each, tagged 1 and 2. *)
Definition domain_2x3 : Domain :=
  mkDomain (<[1 := node_1]> (<[2 := node_2]> ∅)) 0.5%float.

(** Command codes for the instance. *)
Definition codes (c : RemoteTest) : double :=
  match c with
  | RemoteTest_setTrialResponse => 3
  | RemoteTest_commitState => 5
  | RemoteTest_getForce => 10
  | RemoteTest_getInitialStiff => 12
  | RemoteTest_getTangentStiff => 13
  | RemoteTest_getDamp => 14
  | RemoteTest_getMass => 15
  | RemoteTest_DIE => 99
  end%float.

Definition no_rayleigh : Collaborators :=
  mkCollaborators codes false 0 (fun s => Matrix_Zero (theMatrix s)).

(** The round trip that every query performs: write the command code,
    send the transmit buffer, read the reply into the receive buffer.
    Neither status is looked at. *)
Definition exchange (cmd : double) (s : GenericClient)
  : Outcome GenericClient :=
  s ← sData_store 0 cmd s;
  '(_, s) ← theChannel_sendVector (sendData s) s;
  '(_, s) ← theChannel_recvVector (recvData s) s;
  Done s.

(** The channel once the message of [cmd] has been handed to it. *)
Definition sent (cmd : double) (sb : Vector) (ch : Channel) : Channel :=
  log (sendVector (message cmd sb)) ch.

(** Status, receive buffer and channel once the reply has been read. *)
Definition received (cmd : double) (sb rb : Vector) (ch : Channel)
  : Z * Vector * Channel :=
  Channel_recvVector (sent cmd sb ch) rb.

(** The element after the round trip of [cmd], started with transmit
    buffer [sb], receive buffer [rb] and channel [ch]. *)
Definition after_exchange (cmd : double) (sb rb : Vector) (ch : Channel)
    (s : GenericClient) : GenericClient :=
  set_theChannel (Some (received cmd sb rb ch).2)
    (set_rData (Some (received cmd sb rb ch).1.2)
       (set_sData (Some (message cmd sb)) s)).

(** The receive buffer after [rMatrix->Zero()]. *)
Definition zeroed_front (n : Z) (rb : Vector) : Vector :=
  Vector_new (n * n) ++ drop (Z.to_nat (n * n)) rb.


(** The members a query may write, blanked out together with the channel
    and the buffers. *)
Definition query_erase (s : GenericClient) : GenericClient :=
  io_erase (set_theMatrix [] (set_theVector [] (set_theInitStiff []
    (set_theMass [] (set_initStiffFlag false (set_massFlag false
      (set_dbCtrl [] (set_vbCtrl [] (set_abCtrl [] s))))))))).

(** The element after a matrix-valued query [cmd]: the front of the
    receive buffer was zeroed, then the round trip took place. *)
Definition fetched (cmd : double) (sb rb : Vector) (ch : Channel)
    (s : GenericClient) : GenericClient :=
  after_exchange cmd sb (zeroed_front (numBasicDOF s) rb) ch s.



(** The element after [getResistingForce]. *)
Definition after_getResistingForce (cmd : double) (sb rb : Vector)
    (ch : Channel) (s : GenericClient) : GenericClient :=
  let n := Z.to_nat (numBasicDOF s) in
  let sb' := message cmd sb in
  let rb' := (received cmd sb rb ch).1.2 in
  set_theVector
    (Vector_Assemble (take n rb') (basicDOF s) (Vector_Zero (theVector s)))
    (set_abCtrl (take n (drop (1 + n + n) sb'))
       (set_vbCtrl (take n (drop (1 + n) sb'))
          (set_dbCtrl (take n (drop 1 sb'))
             (after_exchange cmd sb rb ch s)))).

(** The buffer capacity after the two adjustments of [setupConnection]. *)
Definition agreed_dataSize (s : GenericClient) : Z :=
  let ds := if decide (dataSize s < 1+3*numBasicDOF s+1)
            then 1+3*numBasicDOF s+1 else dataSize s in
  if decide (ds < numBasicDOF s * numBasicDOF s)
  then numBasicDOF s * numBasicDOF s else ds.

(** The sizing message of the handshake. *)
Definition handshake (s : GenericClient) : ID :=
  [numBasicDOF s; numBasicDOF s; numBasicDOF s; 0; 1;
   0; 0; 0; numBasicDOF s; 0; agreed_dataSize s].

(** The channel that [setupConnection] creates. *)
Definition new_channel (ext : Collaborators) (remote : Remote)
    (s : GenericClient) : Channel :=
  Channel_new
    (if decide (udp s ≠ 0) then UDP_Socket
     else if SSL ext && bool_decide (ssl s ≠ 0) then TCP_SocketSSL
     else TCP_Socket)
    (port s) (default "127.0.0.1"%string (machineInetAddr s)) remote.

(** The element right after a successful [setupConnection]. *)
Definition connected_state (ext : Collaborators) (remote : Remote)
    (s : GenericClient) : GenericClient :=
  let n := numBasicDOF s in
  let ds := agreed_dataSize s in
  set_rMatrix (Some (mkMatrixView RData n n))
    (set_qDaq (Some (mkView RData 0 n))
       (set_recvData (Some (mkView RData 0 ds))
          (set_rData (Some (Vector_new ds))
             (set_t (Some (mkView SData (1 + n + n + n) 1))
                (set_ab (Some (mkView SData (1 + n + n) n))
                   (set_vb (Some (mkView SData (1 + n) n))
                      (set_db (Some (mkView SData 1 n))
                         (set_sendData (Some (mkView SData 0 ds))
                            (set_sData (Some (Vector_new ds))
                               (set_theChannel
                                  (Some (log (sendID (handshake s))
                                          (log setUpConnection
                                             (new_channel ext remote s))))
                                  (set_dataSize ds s))))))))))).

(** The transmit buffer as [update] leaves it: command code, trial
    displacements, velocities and accelerations in basic space, the time,
    and whatever lay behind in the buffer [sb] before. *)
Definition trial_buffer (ext : Collaborators) (dom : Domain)
    (sel : list ID) (nds : list Node) (sb : Vector) : Vector :=
  code ext RemoteTest_setTrialResponse
  :: pushed getTrialDisp sel nds
  ++ pushed getTrialVel sel nds
  ++ pushed getTrialAccel sel nds
  ++ getCurrentTime dom
  :: drop (3 * length (concat sel) + 2) sb.

(** The element after [update] on an established connection. *)
Definition after_update (ext : Collaborators) (dom : Domain)
    (nds : list Node) (sb : Vector) (ch : Channel) (s : GenericClient)
  : GenericClient :=
  set_theChannel
    (Some (log (sendVector (trial_buffer ext dom (theDOF s) nds sb)) ch))
    (set_sData (Some (trial_buffer ext dom (theDOF s) nds sb)) s).

(** A transmit buffer split along its views: command code [c], the three
    basic-space vectors, the time and the unused tail [rest]. *)
Definition laid_out (c : double) (rest D V A : Vector) (tm : double)
  : Vector :=
  c :: D ++ V ++ A ++ tm :: rest.

(** The element after a successful [setDomain]: node pointers resolved,
    DOF count and Basic DOF Index Set recomputed, full-space containers
    resized and zeroed, domain pointer set. *)
Definition attached_state (s : GenericClient) (nds : list Node)
  : GenericClient :=
  let n := sumZ (getNumberDOF <$> nds) in
  set_theDomain true
    (set_theMass (Matrix_Zero (Matrix_resize n n (theMass s)))
       (set_theInitStiff (Matrix_Zero (Matrix_resize n n (theInitStiff s)))
          (set_theLoad (Vector_Zero (Vector_resize n (theLoad s)))
             (set_theVector (Vector_Zero (Vector_resize n (theVector s)))
                (set_theMatrix
                   (Matrix_Zero (Matrix_resize n n (theMatrix s)))
                   (set_basicDOF
                      (basicDOF_of 0 (theDOF s) (getNumberDOF <$> nds))
                      (set_numDOF n
                         (set_theNodes (Some <$> connectedExternalNodes s)
                            s)))))))).

(** What a query with command [cmd] leaves behind, as far as the next
    operation is concerned: the connection stays established, nothing but
    the channel, the buffers and the results of queries is written, the
    transmit buffer differs in the command code only, and the channel has
    seen exactly one more round trip. *)
Record Queried (cmd : double) (s s' : GenericClient) : Prop := {
  q_Connected : Connected s';
  q_frame : query_erase s' = query_erase s;
  q_trace :
    exists sb,
      sData s = Some sb /\ sData s' = Some (message cmd sb) /\
      calls_of s' = calls_of s ++ round_trip cmd sb (dataSize s)
}.

(** The element of an outcome, the blank element when there is none. *)
Definition run (o : Outcome GenericClient) : GenericClient :=
  match o with
  | Done s => s
  | Undefined _ => GenericClient_default
  end.

(** An element on nodes 1 and 2 that uses DOF 0 and 1 of the first and
    DOF 0 of the second, attached to [domain_2x3]. *)
Definition element_2x3 : GenericClient :=
  Eval vm_compute in
    run (s ← GenericClient_new [1; 2] [[0; 1]; [0]] 8090 None 0 0 0 0;
         setDomain (Some domain_2x3) s).

(** A remote site that accepts the connection and answers three queries,
    the last answer cut short. *)
Definition remote_up : Remote :=
  mkRemote true
    [mkReply [7; 8; 9; 1; 1; 1; 1; 1; 1; 1; 1]%float true;
     mkReply [1; 2; 3; 4; 5; 6; 7; 8; 9; 0; 0]%float true;
     mkReply [1; 2]%float false].

(** A remote site that refuses the connection. *)
Definition remote_down : Remote := mkRemote false [].

(** [element_2x3] after its first [update]. *)
Definition connected_2x3 : GenericClient :=
  Eval vm_compute in
    run ('(_, s) ← update no_rayleigh remote_up domain_2x3 element_2x3;
         Done s).

(** [connected_2x3] after [getInitialStiff] and [getMass]. *)
Definition cached_2x3 : GenericClient :=
  Eval vm_compute in
    run ('(_, s) ← getInitialStiff no_rayleigh connected_2x3;
         '(_, s) ← getMass no_rayleigh s;
         Done s).
Lemma bind_Done {A B} (a : A) (k : A -> Outcome B) : (Done a ≫= k) = k a.
Proof. reflexivity. Qed.

Lemma for_loop_inv {St} (P : nat -> St -> Prop) body start n (st : St) :
  P 0%nat st ->
  (forall k st, (k < n)%nat -> P k st ->
     exists st', body (start + k)%nat st = Done st' /\ P (S k) st') ->
  exists st', for_loop start n body st = Done st' /\ P n st'.
Proof.
  revert P start st. induction n as [|n IH]; intros P start st H0 Hstep.
  - exists st. split; [reflexivity | assumption].
  - destruct (Hstep 0%nat st) as (st1 & Hb & H1); [lia | assumption |].
    rewrite Nat.add_0_r in Hb. simpl. rewrite Hb, bind_Done.
    apply (IH (fun k => P (S k))); [assumption |].
    intros k st2 Hk HP.
    destruct (Hstep (S k) st2) as (st3 & Hb3 & H3); [lia | assumption |].
    exists st3. split; [| assumption].
    rewrite <- Hb3. f_equal. lia.
Qed.

Lemma index_Some {A} (a : list A) i x : a !! i = Some x -> index a i = Done x.
Proof. unfold index. intros ->. reflexivity. Qed.

Lemma assign_ok {A} (a : list A) (i : nat) x :
  (i < length a)%nat -> assign a (Z.of_nat i) x = Done (<[i := x]> a).
Proof.
  intros H. unfold assign. rewrite decide_True by lia.
  rewrite Nat2Z.id. reflexivity.
Qed.

Lemma sumZ_app l1 l2 : sumZ (l1 ++ l2) = sumZ l1 + sumZ l2.
Proof. induction l1; simpl; lia. Qed.

Lemma insert_take_replicate {A} (l : list A) (k n : nat) (x d : A) :
  l !! k = Some x -> (k < n)%nat ->
  <[k := x]> (take k l ++ replicate (n - k) d)
  = take (S k) l ++ replicate (n - S k) d.
Proof.
  intros Hk Hn.
  assert (Hlen : length (take k l) = k).
  { apply lookup_lt_Some in Hk. rewrite length_take. lia. }
  replace (n - k)%nat with (S (n - S k)) by lia. simpl.
  rewrite (take_S_r _ _ _ Hk), <- app_assoc. simpl.
  rewrite insert_app_r_alt by lia.
  rewrite Hlen, Nat.sub_diag. reflexivity.
Qed.

Lemma ID_Zero_resize n v : 0 <= n -> ID_Zero (ID_resize n v) = replicate (Z.to_nat n) 0.
Proof. intros. unfold ID_Zero, ID_resize. rewrite length_resize. reflexivity. Qed.

Lemma sumZ_sizes_nonneg (l : list ID) : 0 <= sumZ (ID_Size <$> l).
Proof. induction l as [|a l IH]; [simpl; lia|]. rewrite fmap_cons. simpl. unfold ID_Size at 1. lia. Qed.

Lemma new_loop nodes_ (dof : list ID) :
  (length nodes_ <= length dof)%nat ->
  for_upto (ID_Size nodes_)
      (fun i '(td, nb) =>
         d ← index dof i;
         td ← assign td (Z.of_nat i) d;
         Done (td, nb + ID_Size d))
      (replicate (Z.to_nat (ID_Size nodes_)) [], 0)
  = Done (take (length nodes_) dof,
          sumZ (ID_Size <$> take (length nodes_) dof)).
Proof.
  intros Hlen. unfold for_upto.
  replace (Z.to_nat (ID_Size nodes_)) with (length nodes_)
    by (unfold ID_Size; lia).
  set (n := length nodes_) in *.
  edestruct (for_loop_inv
    (fun k (st : list ID * Z) =>
       st.1 = take k dof ++ replicate (n - k) [] /\
       st.2 = sumZ (ID_Size <$> take k dof))) as (st & Hrun & Htd & Hnb);
    [ | | rewrite Hrun ].
  - simpl. rewrite Nat.sub_0_r. split; reflexivity.
  - intros k [td nb] Hk [Htd Hnb]. simpl in Htd, Hnb. simpl.
    destruct (lookup_lt_is_Some_2 dof k) as [d Hd]; [lia |].
    rewrite (index_Some _ _ _ Hd), bind_Done.
    rewrite assign_ok, bind_Done.
    2:{ rewrite Htd, length_app, length_take, length_replicate. lia. }
    eexists. split; [reflexivity |]. simpl. split.
    + rewrite Htd. apply insert_take_replicate; assumption.
    + rewrite (take_S_r _ _ _ Hd), fmap_app, sumZ_app, Hnb. simpl. lia.
  - destruct st as [td nb]. simpl in *. subst.
    rewrite Nat.sub_diag, app_nil_r. reflexivity.
Qed.

Lemma basicDOF_of_snoc off sel ndf d n :
  length sel = length ndf ->
  basicDOF_of off (sel ++ [d]) (ndf ++ [n])
  = basicDOF_of off sel ndf ++ ((fun x => off + sumZ ndf + x) <$> d).
Proof.
  revert off ndf. induction sel as [|d0 sel IH]; intros off [|n0 ndf] Hlen;
    simpl in Hlen; try lia.
  - simpl. rewrite app_nil_r.
    apply list_fmap_ext; intros; lia.
  - simpl. rewrite IH by lia. rewrite <- app_assoc. do 2 f_equal.
    apply list_fmap_ext; intros; lia.
Qed.

Lemma basicDOF_of_length off sel ndf :
  length sel = length ndf ->
  Z.of_nat (length (basicDOF_of off sel ndf)) = sumZ (ID_Size <$> sel).
Proof.
  revert off ndf. induction sel as [|d sel IH]; intros off [|n ndf] Hlen;
    simpl in Hlen; try lia; [reflexivity |].
  simpl. rewrite length_app, length_fmap, Nat2Z.inj_add, IH by lia.
  reflexivity.
Qed.

(** The inner loop writes the offset selection of one node. *)
Lemma setDomain_basicDOF_node_spec ndf (dofs pre rest : ID) :
  (length dofs <= length rest)%nat ->
  setDomain_basicDOF_node ndf dofs (pre ++ rest, Z.of_nat (length pre))
  = Done (pre ++ ((fun x => ndf + x) <$> dofs) ++ drop (length dofs) rest,
          Z.of_nat (length pre) + ID_Size dofs).
Proof.
  intros Hroom. unfold setDomain_basicDOF_node, for_upto, ID_Size.
  rewrite Nat2Z.id.
  edestruct (for_loop_inv
    (fun j (st : ID * Z) =>
       st.1 = pre ++ ((fun x => ndf + x) <$> take j dofs) ++ drop j rest /\
       st.2 = Z.of_nat (length pre) + Z.of_nat j)) as (st & Hrun & Hbd & Hk);
    [ | | rewrite Hrun ].
  - simpl. rewrite Z.add_0_r. split; reflexivity.
  - intros j [bd k] Hj [Hbd Hk]. simpl in Hbd, Hk. simpl.
    destruct (lookup_lt_is_Some_2 dofs j) as [d Hd]; [lia |].
    destruct (lookup_lt_is_Some_2 rest j) as [r Hr]; [lia |].
    rewrite (index_Some _ _ _ Hd), bind_Done.
    assert (Hlt : length (take j dofs) = j) by (rewrite length_take; lia).
    replace k with (Z.of_nat (length pre + j)) by lia.
    rewrite assign_ok, bind_Done.
    2:{ rewrite Hbd, !length_app, length_fmap, Hlt, length_drop. lia. }
    eexists. split; [reflexivity |]. simpl. split; [| lia].
    rewrite Hbd. rewrite (take_S_r _ _ _ Hd), fmap_app. simpl.
    rewrite <- (app_assoc _ [ndf + d]). simpl.
    rewrite (drop_S _ _ _ Hr).
    rewrite insert_app_r_alt by lia.
    rewrite insert_app_r_alt by (rewrite length_fmap; lia).
    rewrite length_fmap, Hlt.
    replace (length pre + j - length pre - j)%nat with 0%nat by lia.
    reflexivity.
  - destruct st as [bd k]. simpl in *. subst.
    rewrite firstn_all. reflexivity.
Qed.

Lemma node_at_resolved dom tags nds i nd :
  Resolved dom tags nds -> nds !! i = Some nd ->
  exists tag, tags !! i = Some tag /\ node_at dom (Some tag) = Done nd.
Proof.
  intros HR Hnd.
  destruct (Forall2_lookup_r _ _ _ _ _ HR Hnd) as (tag & Htag & Hdom).
  exists tag. split; [assumption |].
  unfold node_at. simpl. rewrite Hdom. reflexivity.
Qed.

(** The DOF mapper computes [basicDOF_of]. *)
Lemma setDomain_basicDOF_spec dom s tags nds :
  Resolved dom tags nds ->
  theNodes s = Some <$> tags ->
  numExternalNodes s = ID_Size tags ->
  length (theDOF s) = length tags ->
  Z.of_nat (length (basicDOF s)) = sumZ (ID_Size <$> theDOF s) ->
  exists k ndf,
    setDomain_basicDOF dom s
    = Done (basicDOF_of 0 (theDOF s) (getNumberDOF <$> nds), k, ndf).
Proof.
  intros HR HN Hn Hsel Hbd. unfold setDomain_basicDOF, for_upto.
  rewrite Hn. unfold ID_Size at 1. rewrite Nat2Z.id.
  pose proof (Forall2_length _ _ _ HR) as Hlen.
  set (sel := theDOF s) in *. set (ndfs := getNumberDOF <$> nds).
  set (pre i := basicDOF_of 0 (take i sel) (take i ndfs)).
  assert (Hpre : forall i, (i <= length tags)%nat ->
            Z.of_nat (length (pre i)) = sumZ (ID_Size <$> take i sel)).
  { intros i Hi. apply basicDOF_of_length.
    rewrite !length_take. unfold ndfs. rewrite length_fmap. lia. }
  edestruct (for_loop_inv
    (fun i (st : ID * Z * Z) =>
       st.1.1 = pre i ++ drop (length (pre i)) (basicDOF s) /\
       st.1.2 = Z.of_nat (length (pre i)) /\
       st.2 = sumZ (take i ndfs))) as (st & Hrun & H1 & H2 & H3);
    [ | | rewrite Hrun ].
  - simpl. rewrite drop_0. repeat split; reflexivity.
  - intros i [[bd k] ndf] Hi (H1 & H2 & H3). simpl in H1, H2, H3. simpl.
    destruct (lookup_lt_is_Some_2 sel i) as [dofs Hd]; [lia |].
    destruct (lookup_lt_is_Some_2 nds i) as [nd Hnd]; [lia |].
    destruct (node_at_resolved _ _ _ _ _ HR Hnd) as (tag & Htag & Hat).
    rewrite (index_Some _ _ _ Hd), bind_Done. subst bd k.
    assert (Hsplit : sumZ (ID_Size <$> sel)
              = sumZ (ID_Size <$> take i sel) + ID_Size dofs
                + sumZ (ID_Size <$> drop (S i) sel)).
    { rewrite <- (take_drop_middle _ _ _ Hd) at 1.
      rewrite fmap_app, sumZ_app, fmap_cons. simpl. lia. }
    pose proof (sumZ_sizes_nonneg (drop (S i) sel)) as Hnn.
    rewrite setDomain_basicDOF_node_spec, bind_Done.
    2:{ rewrite length_drop. rewrite <- Hpre in Hsplit by lia.
        unfold ID_Size in Hsplit, Hnn, Hbd. lia. }
    rewrite (index_Some _ _ (Some tag)).
    2:{ rewrite HN, list_lookup_fmap, Htag. reflexivity. }
    rewrite bind_Done.
    rewrite Hat, bind_Done.
    eexists. split; [reflexivity |]. simpl.
    assert (Hndf : ndfs !! i = Some (getNumberDOF nd)).
    { unfold ndfs. rewrite list_lookup_fmap, Hnd. reflexivity. }
    assert (Hnext : pre (S i)
              = pre i ++ ((fun x => ndf + x) <$> dofs)).
    { unfold pre. rewrite (take_S_r _ _ _ Hd), (take_S_r _ _ _ Hndf).
      rewrite basicDOF_of_snoc.
      - rewrite H3. reflexivity.
      - rewrite !length_take. unfold ndfs. rewrite length_fmap. lia. }
    rewrite Hnext. repeat split.
    + rewrite <- app_assoc. do 2 f_equal.
      rewrite drop_drop, length_app, length_fmap. reflexivity.
    + rewrite length_app, length_fmap. unfold ID_Size. lia.
    + rewrite (take_S_r _ _ _ Hndf), sumZ_app, H3. simpl. lia.
  - destruct st as [[bd k] ndf]. simpl in *. subst. exists (Z.of_nat (length (pre (length tags)))), (sumZ (take (length tags) ndfs)).
    do 2 f_equal. 
    assert (Hall : pre (length tags) = basicDOF_of 0 sel ndfs).
    { unfold pre. rewrite !firstn_all2; [reflexivity | |]; try lia.
      unfold ndfs. rewrite length_fmap. lia. }
    rewrite Hall. rewrite drop_ge, app_nil_r; [reflexivity |].
    rewrite <- Hall.
    specialize (Hpre (length tags) (le_n _)).
    rewrite firstn_all2 in Hpre by lia. lia.
Qed.

Lemma for_loop_preserves {St} (P : St -> Prop) body start n (st st' : St) :
  (forall i st st', P st -> body i st = Done st' -> P st') ->
  P st -> for_loop start n body st = Done st' -> P st'.
Proof.
  intros Hstep. revert start st. induction n as [|n IH]; intros start st HP Hrun.
  - simpl in Hrun. congruence.
  - simpl in Hrun. destruct (body start st) as [st1|] eqn:Hb; [| discriminate].
    rewrite bind_Done in Hrun. eapply IH; [| exact Hrun]. eauto.
Qed.

Ltac same_field H f :=
  let E := fresh "E" in
  pose proof (f_equal f H) as E; cbn in E.

Lemma Domain_getNode_resolved dom tags nds i tag :
  Resolved dom tags nds -> tags !! i = Some tag ->
  Domain_getNode dom tag = Some tag.
Proof.
  intros HR Htag.
  destruct (Forall2_lookup_l _ _ _ _ _ HR Htag) as (nd & _ & Hdom).
  unfold Domain_getNode. rewrite Hdom. reflexivity.
Qed.

Lemma setDomain_resolve dom s nds :
  Built s -> Resolved dom (connectedExternalNodes s) nds ->
  exists s1,
    for_upto (numExternalNodes s)
      (fun i s =>
         tag ← index (connectedExternalNodes s) i;
         tn ← assign (theNodes s) (Z.of_nat i) (Domain_getNode dom tag);
         Done (set_theNodes tn s)) s = Done s1 /\
    theNodes s1 = Some <$> connectedExternalNodes s /\
    set_theNodes [] s1 = set_theNodes [] s.
Proof.
  intros [Hn HlN _ _ _] HR. unfold for_upto. rewrite Hn.
  unfold ID_Size. rewrite Nat2Z.id.
  set (tags := connectedExternalNodes s) in *.
  edestruct (for_loop_inv
    (fun k s1 =>
       theNodes s1 = (Some <$> take k tags) ++ drop k (theNodes s) /\
       set_theNodes [] s1 = set_theNodes [] s)) as (s1 & Hrun & HN & HE);
    [ | | exists s1; split; [exact Hrun |] ].
  - simpl. rewrite drop_0. split; reflexivity.
  - intros k s1 Hk [HN HE]. simpl.
    same_field HE connectedExternalNodes. fold tags in E.
    destruct (lookup_lt_is_Some_2 tags k) as [tag Htag]; [lia |].
    destruct (lookup_lt_is_Some_2 (theNodes s) k) as [p Hp]; [lia |].
    rewrite E, (index_Some _ _ _ Htag), bind_Done.
    rewrite (Domain_getNode_resolved _ _ _ _ _ HR Htag).
    assert (Hlt : length (take k tags) = k) by (rewrite length_take; lia).
    rewrite assign_ok, bind_Done.
    2:{ rewrite HN, length_app, length_fmap, Hlt, length_drop. lia. }
    eexists. split; [reflexivity |]. split; [| exact HE].
    cbn. rewrite HN, (take_S_r _ _ _ Htag), fmap_app, <- app_assoc.
    rewrite (drop_S _ _ _ Hp).
    rewrite insert_app_r_alt by (rewrite length_fmap; lia).
    rewrite length_fmap, Hlt, Nat.sub_diag. reflexivity.
  - split; [| exact HE]. rewrite HN, firstn_all, drop_ge, app_nil_r by lia.
    reflexivity.
Qed.

Lemma setDomain_ok dom s nds :
  Built s -> Resolved dom (connectedExternalNodes s) nds ->
  exists s',
    setDomain (Some dom) s = Done s' /\
    basicDOF s' = basicDOF_of 0 (theDOF s) (getNumberDOF <$> nds) /\
    numDOF s' = sumZ (getNumberDOF <$> nds) /\
    theNodes s' = Some <$> connectedExternalNodes s /\
    theDomain s' = true /\
    attach_erase s' = attach_erase s.
Proof.
  intros HB HR. pose proof HB as [Hn HlN HlD HnB HbD].
  destruct (setDomain_resolve dom s nds HB HR) as (s1 & Hrun & HN & HE).
  unfold setDomain. rewrite Hrun, bind_Done.
  same_field HE numExternalNodes. rename E into En.
  same_field HE theDOF. rename E into Ed.
  same_field HE basicDOF. rename E into Eb.
  pose proof (Forall2_length _ _ _ HR) as Hlen.
  set (tags := connectedExternalNodes s) in *.
  (* no node is missing *)
  assert (Hmiss : for_upto (numExternalNodes s1)
            (fun i found => p ← index (theNodes s1) i;
                            Done (found || bool_decide (p = None))) false
          = Done false).
  { unfold for_upto. rewrite En, Hn. unfold ID_Size. rewrite Nat2Z.id.
    edestruct (for_loop_inv (fun (_ : nat) (b : bool) => b = false))
      as (b & Hb & ->); [reflexivity | | exact Hb].
    intros k b Hk ->. simpl.
    destruct (lookup_lt_is_Some_2 tags k) as [tag Htag]; [lia |].
    rewrite (index_Some _ _ (Some tag))
      by (rewrite HN, list_lookup_fmap, Htag; reflexivity).
    rewrite bind_Done. eexists. split; reflexivity. }
  rewrite Hmiss, bind_Done.
  (* the number of dof *)
  assert (Hnum : for_upto (numExternalNodes s1)
            (fun i acc => p ← index (theNodes s1) i;
                          nd ← node_at dom p;
                          Done (acc + getNumberDOF nd)) 0
          = Done (sumZ (getNumberDOF <$> nds))).
  { unfold for_upto. rewrite En, Hn. unfold ID_Size. rewrite Nat2Z.id.
    edestruct (for_loop_inv
      (fun k acc => acc = sumZ (getNumberDOF <$> take k nds)))
      as (acc & Hacc & ->); [reflexivity | | rewrite Hacc].
    - intros k acc Hk ->. simpl.
      destruct (lookup_lt_is_Some_2 nds k) as [nd Hnd]; [lia |].
      destruct (node_at_resolved _ _ _ _ _ HR Hnd) as (tag & Htag & Hat).
      rewrite (index_Some _ _ (Some tag))
        by (rewrite HN, list_lookup_fmap, Htag; reflexivity).
      rewrite bind_Done, Hat, bind_Done.
      eexists. split; [reflexivity |].
      rewrite (take_S_r _ _ _ Hnd), fmap_app, sumZ_app. simpl. lia.
    - rewrite firstn_all2 by lia. reflexivity. }
  rewrite Hnum, bind_Done.
  destruct (setDomain_basicDOF_spec dom
              (set_numDOF (sumZ (getNumberDOF <$> nds)) s1) tags nds)
    as (k & ndf & Hbd); cbn; try assumption.
  - rewrite En. exact Hn.
  - rewrite Ed. exact HlD.
  - rewrite Ed, Eb. unfold ID_Size in HbD. rewrite HbD. exact HnB.
  - rewrite Hbd, bind_Done. cbn in *.
    eexists. split; [reflexivity |]. cbn.
    rewrite Ed. repeat split; try assumption.
    unfold attach_erase. cbn.
    apply (f_equal attach_erase) in HE. unfold attach_erase in HE.
    cbn in HE. exact HE.
Qed.

Lemma GenericClient_new_ok nodes_ dof _port addr _ssl _udp datasize addRay :
  length dof = length nodes_ ->
  exists s,
    GenericClient_new nodes_ dof _port addr _ssl _udp datasize addRay
    = Done s /\
    connectedExternalNodes s = nodes_ /\ theDOF s = dof /\
    dataSize s = datasize /\ Built s /\ Unconnected s.
Proof.
  intros Hlen. unfold GenericClient_new.
  rewrite new_loop by lia. rewrite bind_Done. cbn beta iota.
  eexists. split; [reflexivity |]. cbn.
  rewrite <- Hlen, firstn_all.
  repeat split; cbn; try reflexivity.
  - rewrite length_replicate. unfold ID_Size. lia.
  - assumption.
  - rewrite ID_Zero_resize by apply sumZ_sizes_nonneg.
    unfold ID_Size at 1. rewrite length_replicate.
    pose proof (sumZ_sizes_nonneg dof). lia.
Qed.

Lemma basicDOF_of_app off sel1 ndf1 sel2 ndf2 :
  length sel1 = length ndf1 ->
  basicDOF_of off (sel1 ++ sel2) (ndf1 ++ ndf2)
  = basicDOF_of off sel1 ndf1 ++ basicDOF_of (off + sumZ ndf1) sel2 ndf2.
Proof.
  revert off ndf1. induction sel1 as [|d sel1 IH]; intros off [|n ndf1] Hlen;
    simpl in Hlen; try lia.
  - simpl. rewrite Z.add_0_r. reflexivity.
  - simpl. rewrite IH by lia. rewrite <- app_assoc. do 3 f_equal. lia.
Qed.

Lemma basicDOF_of_concat_length off sel ndf :
  length sel = length ndf ->
  length (basicDOF_of off sel ndf) = length (concat sel).
Proof.
  revert off ndf. induction sel as [|d sel IH]; intros off [|n ndf] Hlen;
    simpl in Hlen; try lia; [reflexivity |].
  simpl. rewrite !length_app, length_fmap, IH by lia. reflexivity.
Qed.

(** Entry [k] of the mapping: the offset of the node plus the selected
    local index. *)
Lemma basicDOF_of_lookup off sel ndf i j dofs d :
  length sel = length ndf ->
  sel !! i = Some dofs -> dofs !! j = Some d ->
  basicDOF_of off sel ndf !! (length (concat (take i sel)) + j)%nat
  = Some (off + sumZ (take i ndf) + d).
Proof.
  intros Hlen Hi Hj.
  destruct (lookup_lt_is_Some_2 ndf i) as [n Hn].
  { apply lookup_lt_Some in Hi. lia. }
  assert (Hl : length (take i sel) = length (take i ndf))
    by (rewrite !length_take; lia).
  pose proof (take_drop_middle _ _ _ Hi) as Es.
  pose proof (take_drop_middle _ _ _ Hn) as En.
  set (ps := take i sel) in *. set (pn := take i ndf) in *.
  rewrite <- Es, <- En.
  rewrite basicDOF_of_app by exact Hl.
  rewrite lookup_app_r by (rewrite basicDOF_of_concat_length by exact Hl; lia).
  rewrite basicDOF_of_concat_length by exact Hl.
  replace (length (concat ps) + j - length (concat ps))%nat with j by lia.
  simpl. rewrite lookup_app_l.
  2:{ rewrite length_fmap. apply lookup_lt_Some in Hj. exact Hj. }
  rewrite list_lookup_fmap, Hj. reflexivity.
Qed.

Lemma basicDOF_of_range off sel (nds : list Node) :
  Forall (fun nd => 0 <= getNumberDOF nd) nds ->
  ValidSelection sel nds ->
  Forall (fun e => off <= e < off + sumZ (getNumberDOF <$> nds))
         (basicDOF_of off sel (getNumberDOF <$> nds)).
Proof.
  intros Hnn H. revert off.
  induction H as [|dofs nd sel nds Hd _ IH]; intros off.
  - constructor.
  - apply Forall_cons in Hnn as [Hnd Hnn]. specialize (IH Hnn).
    assert (Htot : 0 <= sumZ (getNumberDOF <$> nds)).
    { clear -Hnn. induction Hnn as [|a l Ha _ IH']; [simpl; lia |].
      rewrite fmap_cons. simpl. lia. }
    rewrite fmap_cons. simpl. apply Forall_app. split.
    + apply Forall_fmap. eapply Forall_impl; [exact Hd |].
      simpl. intros d Hdr. lia.
    + eapply Forall_impl; [apply IH |]. simpl. intros e He. lia.
Qed.

Lemma sumZ_fmap_take_eq (nds : list Node) i :
  sumZ (take i (getNumberDOF <$> nds)) = sumZ (getNumberDOF <$> take i nds).
Proof. rewrite fmap_take. reflexivity. Qed.

(** C2. For every attached element, the Basic DOF Index Set has length
    numBasicDOF, the sum over the nodes of the number of selected DOFs, and
    entry k is the accumulated total-DOF offset of its node plus the
    selected local index, the offset being accumulated by walking the
    nodes in order; for two nodes with three DOF each and the selections
    {0,1} and {0}, numBasicDOF is 3 and the index set is [0,1,3], every
    entry in [0, numDOF). *)
Theorem basicDOF_index_set :
  (forall nodes_ dof _port addr _ssl _udp datasize addRay dom nds,
     length dof = length nodes_ ->
     Resolved dom nodes_ nds ->
     exists s0 s1,
       GenericClient_new nodes_ dof _port addr _ssl _udp datasize addRay
       = Done s0 /\
       setDomain (Some dom) s0 = Done s1 /\
       numBasicDOF s1 = sumZ (ID_Size <$> dof) /\
       ID_Size (basicDOF s1) = numBasicDOF s1 /\
       numDOF s1 = sumZ (getNumberDOF <$> nds) /\
       basicDOF s1 = basicDOF_of 0 dof (getNumberDOF <$> nds) /\
       (forall i j dofs d,
          dof !! i = Some dofs -> dofs !! j = Some d ->
          basicDOF s1 !! (length (concat (take i dof)) + j)%nat
          = Some (sumZ (getNumberDOF <$> take i nds) + d)) /\
       (Forall (fun nd => 0 <= getNumberDOF nd) nds ->
        ValidSelection dof nds ->
        Forall (fun e => 0 <= e < numDOF s1) (basicDOF s1)))
  /\
  (forall tag1 tag2 nd1 nd2 _port addr _ssl _udp datasize addRay dom,
     getNumberDOF nd1 = 3 -> getNumberDOF nd2 = 3 ->
     Resolved dom [tag1; tag2] [nd1; nd2] ->
     exists s0 s1,
       GenericClient_new [tag1; tag2] [[0; 1]; [0]]
                         _port addr _ssl _udp datasize addRay = Done s0 /\
       setDomain (Some dom) s0 = Done s1 /\
       numBasicDOF s1 = 3 /\ numDOF s1 = 6 /\
       basicDOF s1 = [0; 1; 3] /\
       Forall (fun e => 0 <= e < numDOF s1) (basicDOF s1)).
Proof.
  assert (General : forall nodes_ dof _port addr _ssl _udp datasize addRay
                           dom nds,
     length dof = length nodes_ ->
     Resolved dom nodes_ nds ->
     exists s0 s1,
       GenericClient_new nodes_ dof _port addr _ssl _udp datasize addRay
       = Done s0 /\
       setDomain (Some dom) s0 = Done s1 /\
       numBasicDOF s1 = sumZ (ID_Size <$> dof) /\
       ID_Size (basicDOF s1) = numBasicDOF s1 /\
       numDOF s1 = sumZ (getNumberDOF <$> nds) /\
       basicDOF s1 = basicDOF_of 0 dof (getNumberDOF <$> nds) /\
       (forall i j dofs d,
          dof !! i = Some dofs -> dofs !! j = Some d ->
          basicDOF s1 !! (length (concat (take i dof)) + j)%nat
          = Some (sumZ (getNumberDOF <$> take i nds) + d)) /\
       (Forall (fun nd => 0 <= getNumberDOF nd) nds ->
        ValidSelection dof nds ->
        Forall (fun e => 0 <= e < numDOF s1) (basicDOF s1))).
  { intros nodes_ dof _port addr _ssl _udp datasize addRay dom nds Hlen HR.
    destruct (GenericClient_new_ok nodes_ dof _port addr _ssl _udp datasize
                addRay Hlen) as (s0 & Hnew & Htags & Hsel & _ & HB & _).
    rewrite <- Htags in HR.
    destruct (setDomain_ok dom s0 nds HB HR)
      as (s1 & Hset & Hbd & Hnd & _ & _ & HE).
    exists s0, s1. rewrite Hsel in Hbd.
    pose proof (Forall2_length _ _ _ HR) as Hl. rewrite Htags in Hl.
    assert (Hl' : length dof = length (getNumberDOF <$> nds))
      by (rewrite length_fmap; lia).
    assert (HnB : numBasicDOF s1 = sumZ (ID_Size <$> dof)).
    { same_field HE numBasicDOF. rewrite E, <- Hsel. apply HB. }
    repeat split; try assumption.
    - rewrite Hbd, HnB. unfold ID_Size at 1.
      apply basicDOF_of_length. exact Hl'.
    - intros i j dofs d Hi Hj. rewrite Hbd, <- sumZ_fmap_take_eq.
      rewrite (basicDOF_of_lookup 0 dof _ i j dofs d Hl' Hi Hj).
      f_equal.
    - intros Hnn Hv. rewrite Hbd, Hnd.
      apply (basicDOF_of_range 0 dof nds Hnn Hv). }
  split; [exact General |].
  intros tag1 tag2 nd1 nd2 _port addr _ssl _udp datasize addRay dom H1 H2 HR.
  destruct (General [tag1; tag2] [[0; 1]; [0]] _port addr _ssl _udp datasize
              addRay dom [nd1; nd2] eq_refl HR)
    as (s0 & s1 & Hnew & Hset & HnB & _ & Hnd & Hbd & _ & Hrange).
  exists s0, s1. cbn in HnB, Hnd, Hbd. rewrite H1, H2 in Hnd. rewrite H1 in Hbd.
  cbn in Hnd, Hbd.
  split; [exact Hnew |]. split; [exact Hset |]. split; [exact HnB |].
  split; [exact Hnd |]. split; [exact Hbd |].
  apply Hrange.
  - repeat constructor; lia.
  - repeat constructor; lia.
Qed.

Lemma basicDOF_index_set_witness :
  exists s0 s1,
    GenericClient_new [1; 2] [[0; 1]; [0]] 8090 None 0 0 0 0 = Done s0 /\
    setDomain (Some domain_2x3) s0 = Done s1 /\
    numBasicDOF s1 = 3 /\ numDOF s1 = 6 /\
    basicDOF s1 = [0; 1; 3] /\
    Forall (fun e => 0 <= e < numDOF s1) (basicDOF s1).
Proof.
  apply (proj2 basicDOF_index_set 1 2 node_1 node_2).
  - reflexivity.
  - reflexivity.
  - repeat constructor.
Defined.

(** ** Buffers *)

Lemma slice_ok off len buf :
  in_bounds off len buf ->
  slice off len buf = Done (take (Z.to_nat len) (drop (Z.to_nat off) buf)).
Proof. intros H. unfold slice. rewrite decide_True by exact H. reflexivity. Qed.

Lemma slice_whole n buf :
  Z.of_nat (length buf) = n -> slice 0 n buf = Done buf.
Proof.
  intros <-. rewrite slice_ok by (unfold in_bounds; lia).
  rewrite Nat2Z.id. simpl. rewrite firstn_all. reflexivity.
Qed.

Lemma blit_ok off data buf :
  in_bounds off (Z.of_nat (length data)) buf ->
  blit off data buf
  = Done (take (Z.to_nat off) buf ++ data
          ++ drop (Z.to_nat off + length data) buf).
Proof. intros H. unfold blit. rewrite decide_True by exact H. reflexivity. Qed.

Lemma blit_whole data buf :
  length data = length buf -> blit 0 data buf = Done data.
Proof.
  intros H. rewrite blit_ok by (unfold in_bounds; lia).
  simpl. rewrite H, drop_all, app_nil_r. reflexivity.
Qed.

Lemma blit_length off data buf buf' :
  blit off data buf = Done buf' -> length buf' = length buf.
Proof.
  unfold blit. destruct (decide _) as [(H0 & _ & H)|]; [| discriminate].
  intros [= <-]. rewrite !length_app, length_take, length_drop. lia.
Qed.

Lemma store_ok x buf :
  (0 < length buf)%nat -> store 0 x buf = Done (message x buf).
Proof.
  intros H. unfold store. rewrite blit_ok by (unfold in_bounds; simpl; lia).
  destruct buf as [|y buf]; [simpl in H; lia |]. simpl.
  rewrite drop_0. reflexivity.
Qed.

Lemma message_length x buf : length (message x buf) = length buf.
Proof. apply length_insert. Qed.

Lemma message_head x buf :
  (0 < length buf)%nat -> message x buf !! 0%nat = Some x.
Proof. intros. apply list_lookup_insert_eq. assumption. Qed.

Lemma Channel_recvVector_length ch dest :
  length (Channel_recvVector ch dest).1.2 = length dest.
Proof.
  unfold Channel_recvVector. simpl.
  destruct (alive ch); [| reflexivity].
  destruct (inbox ch) as [|r rest]; [reflexivity |]. simpl.
  rewrite length_app, length_drop, length_take. lia.
Qed.

Lemma Channel_recvVector_calls ch dest :
  calls (Channel_recvVector ch dest).2
  = calls ch ++ [recvVector (Vector_Size dest)].
Proof.
  unfold Channel_recvVector. simpl.
  destruct (alive ch); [| reflexivity].
  destruct (inbox ch); reflexivity.
Qed.

(** ** The primitive steps on the element *)

Lemma sData_store_ok cmd s sb :
  sData s = Some sb -> (0 < length sb)%nat ->
  sData_store 0 cmd s = Done (set_sData (Some (message cmd sb)) s).
Proof.
  intros Hs Hl. unfold sData_store. rewrite Hs. simpl.
  rewrite store_ok by exact Hl. reflexivity.
Qed.

Lemma theChannel_sendVector_ok s ch sb n :
  theChannel s = Some ch -> sData s = Some sb ->
  Z.of_nat (length sb) = n ->
  theChannel_sendVector (Some (mkView SData 0 n)) s
  = Done (status (alive ch), set_theChannel (Some (log (sendVector sb) ch)) s).
Proof.
  intros Hc Hs Hl. unfold theChannel_sendVector, view_get.
  rewrite Hc. simpl. rewrite Hs. simpl.
  rewrite slice_whole by exact Hl. reflexivity.
Qed.

Lemma theChannel_recvVector_ok s ch rb n :
  theChannel s = Some ch -> rData s = Some rb ->
  Z.of_nat (length rb) = n ->
  theChannel_recvVector (Some (mkView RData 0 n)) s
  = Done ((Channel_recvVector ch rb).1.1,
          set_theChannel (Some (Channel_recvVector ch rb).2)
            (set_rData (Some (Channel_recvVector ch rb).1.2) s)).
Proof.
  intros Hc Hr Hl. unfold theChannel_recvVector, view_get, view_update.
  rewrite Hc. simpl. rewrite Hr. simpl.
  rewrite slice_whole by exact Hl. simpl.
  rewrite blit_whole by apply Channel_recvVector_length. reflexivity.
Qed.


Lemma mview_get_ok s rb n :
  rData s = Some rb -> 0 <= n -> n * n <= Z.of_nat (length rb) ->
  exists R, mview_get (Some (mkMatrixView RData n n)) s = Done R.
Proof.
  intros Hr Hn Hl. unfold mview_get. simpl. rewrite Hr. simpl.
  unfold matrix_of. rewrite decide_True by (unfold in_bounds; nia).
  eexists. reflexivity.
Qed.

Lemma view_get_ok s b buf off len :
  buffer b s = Some buf -> in_bounds off len buf ->
  view_get (Some (mkView b off len)) s
  = Done (take (Z.to_nat len) (drop (Z.to_nat off) buf)).
Proof.
  intros Hb Hin. unfold view_get. simpl. rewrite Hb. simpl.
  apply slice_ok. exact Hin.
Qed.

(** ** Connected states *)

Lemma Connected_transfer s s' :
  Connected s -> query_erase s' = query_erase s ->
  is_Some (theChannel s') ->
  (exists buf, sData s' = Some buf /\ Z.of_nat (length buf) = dataSize s) ->
  (exists buf, rData s' = Some buf /\ Z.of_nat (length buf) = dataSize s) ->
  Connected s'.
Proof.
  intros [Hc Hn H1 H2 Hs Hr HsD Hdb Hvb Hab Ht HrD Hq HrM] E Hc' Hs' Hr'.
  pose proof (f_equal numBasicDOF E) as En. cbn in En.
  pose proof (f_equal dataSize E) as Ed. cbn in Ed.
  pose proof (f_equal sendData E) as E1. cbn in E1.
  pose proof (f_equal db E) as E2. cbn in E2.
  pose proof (f_equal vb E) as E3. cbn in E3.
  pose proof (f_equal ab E) as E4. cbn in E4.
  pose proof (f_equal t E) as E5. cbn in E5.
  pose proof (f_equal recvData E) as E6. cbn in E6.
  pose proof (f_equal qDaq E) as E7. cbn in E7.
  pose proof (f_equal rMatrix E) as E8. cbn in E8.
  constructor; rewrite ?En, ?Ed, ?E1, ?E2, ?E3, ?E4, ?E5, ?E6, ?E7, ?E8;
    assumption.
Qed.

Lemma received_length cmd sb rb ch :
  length (received cmd sb rb ch).1.2 = length rb.
Proof. apply Channel_recvVector_length. Qed.

Lemma received_calls cmd sb rb ch :
  calls (received cmd sb rb ch).2
  = calls ch ++ round_trip cmd sb (Vector_Size rb).
Proof.
  unfold received. rewrite Channel_recvVector_calls.
  unfold sent, round_trip. simpl. rewrite <- app_assoc. reflexivity.
Qed.

Lemma zeroed_front_length n rb :
  0 <= n -> n * n <= Z.of_nat (length rb) ->
  length (zeroed_front n rb) = length rb.
Proof.
  intros Hn Hl. unfold zeroed_front, Vector_new.
  rewrite length_app, length_replicate, length_drop. nia.
Qed.

(** The round trip on a connected element. *)
Lemma exchange_ok cmd s sb rb ch :
  Connected s ->
  sData s = Some sb -> rData s = Some rb -> theChannel s = Some ch ->
  exchange cmd s = Done (after_exchange cmd sb rb ch s).
Proof.
  intros HC Hs Hr Hc. pose proof HC as [_ Hn H1 _ Hs' Hr' HsD _ _ _ _ HrD _ _].
  destruct Hs' as (sb' & Hs' & Hls). destruct Hr' as (rb' & Hr' & Hlr).
  assert (sb' = sb) by congruence. assert (rb' = rb) by congruence.
  subst sb' rb'.
  unfold exchange.
  rewrite (sData_store_ok cmd s sb Hs) by lia. rewrite bind_Done.
  cbn [sendData set_sData]. rewrite HsD.
  rewrite (theChannel_sendVector_ok _ ch (message cmd sb));
    [| exact Hc | reflexivity | rewrite message_length; exact Hls].
  rewrite bind_Done. cbn [recvData set_theChannel set_sData]. rewrite HrD.
  rewrite (theChannel_recvVector_ok _ (sent cmd sb ch) rb);
    [| reflexivity | exact Hr | exact Hlr].
  reflexivity.
Qed.

Lemma after_exchange_Connected cmd s sb rb ch :
  Connected s -> sData s = Some sb -> rData s = Some rb ->
  Connected (after_exchange cmd sb rb ch s).
Proof.
  intros HC Hs Hr. pose proof HC as [_ _ _ _ Hs' Hr' _ _ _ _ _ _ _ _].
  destruct Hs' as (sb' & Hs' & Hls). destruct Hr' as (rb' & Hr' & Hlr).
  assert (sb' = sb) by congruence. assert (rb' = rb) by congruence.
  subst sb' rb'.
  apply (Connected_transfer s); [exact HC | reflexivity | | |]; cbn.
  - eexists; reflexivity.
  - eexists. split; [reflexivity |]. rewrite message_length. exact Hls.
  - eexists. split; [reflexivity |]. rewrite received_length. exact Hlr.
Qed.

Lemma Connected_buffers s :
  Connected s ->
  exists sb rb ch,
    sData s = Some sb /\ rData s = Some rb /\ theChannel s = Some ch /\
    Z.of_nat (length sb) = dataSize s /\ Z.of_nat (length rb) = dataSize s.
Proof.
  intros [[ch Hc] _ _ _ (sb & Hs & Hls) (rb & Hr & Hlr) _ _ _ _ _ _ _ _].
  exists sb, rb, ch. auto.
Qed.





Lemma Connected_set_theVector v s :
  Connected s -> Connected (set_theVector v s).
Proof.
  intros HC. pose proof HC as [Hc _ _ _ Hs Hr _ _ _ _ _ _ _ _].
  apply (Connected_transfer s); [exact HC | reflexivity | | |]; assumption.
Qed.




Section Queries.

Context (ext : Collaborators).





Lemma getResistingForce_ok s sb rb ch :
  Connected s ->
  sData s = Some sb -> rData s = Some rb -> theChannel s = Some ch ->
  let cmd := code ext RemoteTest_getForce in
  getResistingForce ext s
  = Done (ref_theVector, after_getResistingForce cmd sb rb ch s).
Proof.
  intros HC Hs Hr Hc cmd.
  pose proof HC as [_ Hn H1 H2 Hs' Hr' HsD Hdb Hvb Hab _ HrD Hq _].
  destruct Hs' as (sb' & Hs' & Hls). destruct Hr' as (rb' & Hr' & Hlr).
  assert (sb' = sb) by congruence. assert (rb' = rb) by congruence.
  subst sb' rb'.
  unfold getResistingForce.
  rewrite (sData_store_ok cmd _ sb) by (assumption || lia).
  rewrite bind_Done. cbn [sendData set_sData set_theVector]. rewrite HsD.
  rewrite (theChannel_sendVector_ok _ ch (message cmd sb));
    [| exact Hc | reflexivity | rewrite message_length; exact Hls].
  rewrite bind_Done. cbn [recvData set_theChannel set_sData set_theVector].
  rewrite HrD.
  rewrite (theChannel_recvVector_ok _ (sent cmd sb ch) rb);
    [| reflexivity | exact Hr | exact Hlr].
  rewrite bind_Done. fold (received cmd sb rb ch).
  cbn [db vb ab qDaq set_theChannel set_sData set_rData set_theVector
       set_dbCtrl set_vbCtrl set_abCtrl].
  rewrite Hdb, Hvb, Hab, Hq.
  rewrite (view_get_ok _ SData (message cmd sb));
    [| reflexivity | unfold in_bounds; rewrite message_length; lia].
  rewrite bind_Done.
  rewrite (view_get_ok _ SData (message cmd sb));
    [| reflexivity | unfold in_bounds; rewrite message_length; lia].
  rewrite bind_Done.
  rewrite (view_get_ok _ SData (message cmd sb));
    [| reflexivity | unfold in_bounds; rewrite message_length; lia].
  rewrite bind_Done.
  rewrite (view_get_ok _ RData (received cmd sb rb ch).1.2);
    [| reflexivity | unfold in_bounds; rewrite received_length; lia].
  rewrite bind_Done.
  unfold after_getResistingForce.
  replace (Z.to_nat (1 + numBasicDOF s))
    with (1 + Z.to_nat (numBasicDOF s))%nat by lia.
  replace (Z.to_nat (1 + numBasicDOF s + numBasicDOF s))
    with (1 + Z.to_nat (numBasicDOF s) + Z.to_nat (numBasicDOF s))%nat
    by lia.
  reflexivity.
Qed.

End Queries.


(** Reduces the members of the elements that the operations build. *)
Ltac fields :=
  cbn [
    set_basicDOF set_numDOF set_dataSize set_theMatrix set_theVector
    set_theLoad set_theInitStiff set_theMass set_theChannel set_sData
    set_sendData set_rData set_recvData set_db set_vb set_ab set_t set_qDaq
    set_rMatrix set_dbCtrl set_vbCtrl set_abCtrl set_initStiffFlag
    set_massFlag set_theNodes set_theDomain set_buffer
    connectedExternalNodes basicDOF numExternalNodes numDOF numBasicDOF
    port machineInetAddr ssl udp dataSize addRayleigh theMatrix theVector
    theLoad theInitStiff theMass theChannel sData sendData rData recvData
    db vb ab t qDaq rMatrix dbCtrl vbCtrl abCtrl initStiffFlag massFlag
    theNodes theDOF theDomain buffer connected_state attached_state
    after_update after_exchange fetched after_getResistingForce
  ].

(** ** Setting up the connection *)







Section Setup.

Context (ext : Collaborators).


End Setup.

(** ** Assembling into a vector *)

Lemma Vector_addAt_middle (pre post : Vector) y x :
  Vector_addAt (Z.of_nat (length pre)) x (pre ++ y :: post)
  = pre ++ PrimFloat.add y x :: post.
Proof.
  unfold Vector_addAt. rewrite decide_True by lia. rewrite Nat2Z.id.
  rewrite alter_app_r_alt by lia.
  rewrite Nat.sub_diag. reflexivity.
Qed.

Lemma Vector_AssembleAt_app (V pre mid post : Vector) :
  length mid = length V ->
  Vector_AssembleAt V (Z.of_nat (length pre)) (pre ++ mid ++ post)
  = pre ++ zip_with PrimFloat.add mid V ++ post.
Proof.
  unfold Vector_AssembleAt.
  assert (G : forall (V mid done_ : Vector),
            length mid = length V ->
            foldl (fun acc ix =>
                     Vector_addAt (Z.of_nat (length pre) + Z.of_nat ix.1)
                                  ix.2 acc)
                  (pre ++ done_ ++ mid ++ post)
                  (imap (fun i x => ((length done_ + i)%nat, x)) V)
            = pre ++ done_ ++ zip_with PrimFloat.add mid V ++ post).
  { clear. intros V. induction V as [|x V IH]; intros mid done_ Hl.
    - destruct mid; [reflexivity | discriminate].
    - destruct mid as [|y mid]; [discriminate |]. simpl in Hl.
      simpl. rewrite Nat.add_0_r.
      rewrite <- Nat2Z.inj_add, <- length_app, app_assoc.
      rewrite Vector_addAt_middle.
      specialize (IH mid (done_ ++ [PrimFloat.add y x]) ltac:(lia)).
      rewrite <- !app_assoc in *. simpl in IH. rewrite <- IH.
      f_equal. apply imap_ext. intros i z _. simpl.
      rewrite length_app. simpl. f_equal. lia. }
  intros Hl. specialize (G V mid [] Hl). simpl in G.
  rewrite <- G. f_equal.
Qed.

Lemma Vector_AssembleAt_length V pos v :
  length (Vector_AssembleAt V pos v) = length v.
Proof.
  unfold Vector_AssembleAt. generalize (imap pair V). intros l. revert v.
  induction l as [|[i x] l IH]; intros v; [reflexivity |]. simpl.
  rewrite IH. unfold Vector_addAt. case_decide; [| reflexivity].
  apply length_alter.
Qed.

(** ** Writing through a view of the transmit buffer *)

Lemma view_update_segment s (pre mid post : Vector) off len f :
  sData s = Some (pre ++ mid ++ post) ->
  off = Z.of_nat (length pre) -> len = Z.of_nat (length mid) ->
  length (f mid) = length mid ->
  view_update (Some (mkView SData off len)) f s
  = Done (set_sData (Some (pre ++ f mid ++ post)) s).
Proof.
  intros Hs -> -> Hf. unfold view_update. simpl. rewrite Hs. simpl.
  rewrite slice_ok.
  2:{ unfold in_bounds. rewrite !length_app. lia. }
  rewrite !Nat2Z.id, drop_app_length, take_app_length. simpl.
  rewrite blit_ok.
  2:{ unfold in_bounds. rewrite Hf, !length_app. lia. }
  rewrite Nat2Z.id, take_app_length, Hf.
  rewrite drop_app_ge by lia.
  replace (length pre + length mid - length pre)%nat with (length mid) by lia.
  rewrite drop_app_length. reflexivity.
Qed.

(** ** The trial-state push *)

Lemma zip_with_add_zero (V : Vector) :
  zip_with PrimFloat.add (replicate (length V) dzero) V
  = PrimFloat.add dzero <$> V.
Proof. induction V as [|x V IH]; [reflexivity |]. simpl. rewrite IH. reflexivity. Qed.

Lemma Vector_select_length v rows : length (Vector_select v rows) = length rows.
Proof. unfold Vector_select. apply length_fmap. Qed.

Lemma pushed_snoc get sel nds dofs nd :
  length sel = length nds ->
  pushed get (sel ++ [dofs]) (nds ++ [nd])
  = pushed get sel nds ++ (PrimFloat.add dzero <$> Vector_select (get nd) dofs).
Proof.
  intros Hl. unfold pushed. rewrite zip_with_app by exact Hl.
  rewrite concat_app. simpl. rewrite app_nil_r. reflexivity.
Qed.

Lemma pushed_length get sel nds :
  length sel = length nds ->
  length (pushed get sel nds) = length (concat sel).
Proof.
  revert nds. induction sel as [|d sel IH]; intros [|nd nds] Hl;
    simpl in Hl; try lia; [reflexivity |].
  unfold pushed in *. simpl. rewrite !length_app, IH by lia.
  rewrite length_fmap, Vector_select_length. reflexivity.
Qed.

Lemma concat_length_sumZ (sel : list ID) :
  Z.of_nat (length (concat sel)) = sumZ (ID_Size <$> sel).
Proof.
  induction sel as [|d sel IH]; [reflexivity |].
  rewrite fmap_cons. simpl. rewrite length_app, Nat2Z.inj_add, IH.
  reflexivity.
Qed.

Section Push.

Context (ext : Collaborators) (dom : Domain) (s0 : GenericClient).
Context (c : float) (rest : Vector) (n : nat).
Context (Hdb : db s0 = Some (mkView SData 1 (Z.of_nat n))).
Context (Hvb : vb s0 = Some (mkView SData (1 + Z.of_nat n) (Z.of_nat n))).
Context (Hab : ab s0 = Some (mkView SData (1 + Z.of_nat n + Z.of_nat n)
                                    (Z.of_nat n))).
Context (Ht : t s0 = Some (mkView SData
                             (1 + Z.of_nat n + Z.of_nat n + Z.of_nat n) 1)).

Local Abbreviation laid_out := (laid_out c rest).

Lemma push_db f D V A tm :
  length D = n -> length (f D) = length D ->
  view_update (db (set_sData (Some (laid_out D V A tm)) s0)) f
              (set_sData (Some (laid_out D V A tm)) s0)
  = Done (set_sData (Some (laid_out (f D) V A tm)) s0).
Proof.
  intros HD Hf. cbn [db set_sData]. rewrite Hdb.
  rewrite (view_update_segment _ [c] D (V ++ A ++ tm :: rest));
    [reflexivity | reflexivity | simpl; lia | lia | exact Hf].
Qed.

Lemma push_vb f D V A tm :
  length D = n -> length V = n -> length (f V) = length V ->
  view_update (vb (set_sData (Some (laid_out D V A tm)) s0)) f
              (set_sData (Some (laid_out D V A tm)) s0)
  = Done (set_sData (Some (laid_out D (f V) A tm)) s0).
Proof.
  intros HD HV Hf. cbn [vb set_sData]. rewrite Hvb.
  rewrite (view_update_segment _ (c :: D) V (A ++ tm :: rest));
    [| reflexivity | simpl; lia | lia | exact Hf].
  reflexivity.
Qed.

Lemma push_ab f D V A tm :
  length D = n -> length V = n -> length A = n ->
  length (f A) = length A ->
  view_update (ab (set_sData (Some (laid_out D V A tm)) s0)) f
              (set_sData (Some (laid_out D V A tm)) s0)
  = Done (set_sData (Some (laid_out D V (f A) tm)) s0).
Proof.
  intros HD HV HA Hf. cbn [ab set_sData]. rewrite Hab.
  rewrite (view_update_segment _ (c :: D ++ V) A (tm :: rest)).
  - unfold laid_out. simpl. rewrite <- !app_assoc. reflexivity.
  - cbn [sData set_sData]. unfold laid_out. simpl.
    rewrite <- !app_assoc. reflexivity.
  - simpl. rewrite length_app. lia.
  - lia.
  - exact Hf.
Qed.

Lemma push_t x D V A tm :
  length D = n -> length V = n -> length A = n ->
  view_update (t (set_sData (Some (laid_out D V A tm)) s0))
              (fun v => <[0%nat := x]> v)
              (set_sData (Some (laid_out D V A tm)) s0)
  = Done (set_sData (Some (laid_out D V A x)) s0).
Proof.
  intros HD HV HA. cbn [t set_sData]. rewrite Ht.
  rewrite (view_update_segment _ (c :: D ++ V ++ A) [tm] rest).
  - unfold laid_out. simpl. rewrite <- !app_assoc. reflexivity.
  - cbn [sData set_sData]. unfold laid_out. simpl.
    rewrite <- !app_assoc. reflexivity.
  - simpl. rewrite !length_app. lia.
  - reflexivity.
  - reflexivity.
Qed.

End Push.

Lemma buffer_split (sb : Vector) (n : nat) :
  (3 * n + 2 <= length sb)%nat ->
  exists c D V A tm,
    sb = laid_out c (drop (3 * n + 2) sb) D V A tm /\
    length D = n /\ length V = n /\ length A = n.
Proof.
  intros Hl. destruct sb as [|c sb]; [simpl in Hl; lia |].
  simpl in Hl.
  exists c, (take n sb), (take n (drop n sb)),
         (take n (drop n (drop n sb))).
  destruct (drop n (drop n (drop n sb))) as [|tm r] eqn:E.
  { apply (f_equal length) in E. rewrite !length_drop in E. simpl in E. lia. }
  exists tm. unfold laid_out. repeat split; try (rewrite ?length_take, ?length_drop; lia).
  f_equal.
  replace (3 * n + 2)%nat with (S (S (n + n + n))) by lia. simpl.
  rewrite <- (take_drop n sb) at 1. f_equal.
  rewrite <- (take_drop n (drop n sb)) at 1. f_equal.
  rewrite <- (take_drop n (drop n (drop n sb))) at 1. f_equal.
  rewrite E. f_equal.
  assert (r = drop 1 (drop n (drop n (drop n sb)))) as -> by (rewrite E; reflexivity).
  rewrite !drop_drop. f_equal. lia.
Qed.

Lemma node_at_attached dom s nds i nd :
  Attached dom s nds -> nds !! i = Some nd ->
  exists p, theNodes s !! i = Some p /\ node_at dom p = Done nd.
Proof.
  intros [_ _ _ HN] Hnd.
  destruct (Forall2_lookup_r _ _ _ _ _ HN Hnd) as (p & Hp & tag & -> & Hdom).
  exists (Some tag). split; [exact Hp |].
  unfold node_at. simpl. rewrite Hdom. reflexivity.
Qed.

Section Update.

Context (ext : Collaborators).

(** [update] on an established connection: the trial state is laid out in
    the transmit buffer and sent in one message. *)
Lemma update_ok remote dom s nds sb ch :
  Connected s -> Attached dom s nds ->
  numBasicDOF s = sumZ (ID_Size <$> theDOF s) ->
  sData s = Some sb -> theChannel s = Some ch ->
  update ext remote dom s
  = Done (status (alive ch), after_update ext dom nds sb ch s).
Proof.
  intros HC HA HnB Hs Hc.
  pose proof HC as [_ Hn H1 _ Hs' _ HsD Hdb Hvb Hab Ht _ _ _].
  destruct Hs' as (sb' & Hs' & Hls). assert (sb' = sb) by congruence.
  subst sb'.
  pose proof HA as [HD HnE HlD HN].
  set (sel := theDOF s) in *.
  set (n := length (concat sel)).
  assert (Hnn : numBasicDOF s = Z.of_nat n).
  { unfold n. rewrite concat_length_sumZ. exact HnB. }
  rewrite Hnn in Hdb, Hvb, Hab, Ht.
  destruct (buffer_split sb n) as (c & D0 & V0 & A0 & t0 & Hsb & HlD0 & HlV0 & HlA0);
    [lia |].
  set (rest := drop (3 * n + 2) sb) in *.
  assert (Hs0 : s = set_sData (Some (laid_out c rest D0 V0 A0 t0)) s).
  { rewrite <- Hsb, <- Hs. destruct s. reflexivity. }
  unfold update. rewrite Hc, bind_Done. cbn beta iota.
  rewrite decide_False by lia. rewrite HD, bind_Done.
  (* the time and the three zeroed vectors *)
  rewrite Hs0 at 1 2.
  rewrite (push_t s c rest n Ht) by assumption. rewrite bind_Done.
  rewrite (push_db s c rest n Hdb) by
    (assumption || (unfold Vector_Zero; apply length_replicate)).
  rewrite bind_Done.
  rewrite (push_vb s c rest n Hvb) by
    (assumption || (unfold Vector_Zero; apply length_replicate)
     || (unfold Vector_Zero; rewrite length_replicate; assumption)).
  rewrite bind_Done.
  rewrite (push_ab s c rest n Hab) by
    (assumption || (unfold Vector_Zero; apply length_replicate)
     || (unfold Vector_Zero; rewrite length_replicate; assumption)).
  rewrite bind_Done.
  unfold Vector_Zero. rewrite HlD0, HlV0, HlA0.
  cbn [numExternalNodes set_sData]. rewrite HnE. unfold for_upto.
  rewrite Nat2Z.id.
  (* the loop over the nodes *)
  set (R get k := pushed get (take k sel) (take k nds)).
  set (m k := length (concat (take k sel))).
  set (tm := getCurrentTime dom).
  edestruct (for_loop_inv
    (fun k (st : GenericClient * Z) =>
       st.1 = set_sData
                (Some (laid_out c rest
                         (R getTrialDisp k ++ replicate (n - m k) dzero)
                         (R getTrialVel k ++ replicate (n - m k) dzero)
                         (R getTrialAccel k ++ replicate (n - m k) dzero)
                         tm)) s /\
       st.2 = Z.of_nat (m k))) as (st & Hrun & Hst & _);
    [ | | rewrite Hrun ].
  - simpl. unfold m. simpl. rewrite Nat.sub_0_r. split; reflexivity.
  - intros k [st ndim] Hk [Hst Hnd]. simpl in Hst, Hnd. subst st ndim.
    cbn beta iota.
    destruct (lookup_lt_is_Some_2 nds k) as [nd Hnd]; [lia |].
    destruct (lookup_lt_is_Some_2 sel k) as [dofs Hdofs]; [lia |].
    destruct (node_at_attached dom s nds k nd HA Hnd) as (p & Hp & Hat).
    cbn [theNodes theDOF set_sData]. fold sel.
    change (0 + k)%nat with k.
    rewrite (index_Some _ _ _ Hp), bind_Done, Hat, bind_Done.
    rewrite (index_Some _ _ _ Hdofs), bind_Done.
    (* sizes *)
    assert (Hlk : length (take k sel) = length (take k nds))
      by (rewrite !length_take; lia).
    assert (HR : forall get, length (R get k) = m k)
      by (intros get; unfold R, m; apply pushed_length; exact Hlk).
    assert (Hm : (m k + length dofs + length (concat (drop (S k) sel)) = n)%nat).
    { unfold m, n. rewrite <- (take_drop_middle _ _ _ Hdofs) at 3.
      rewrite concat_app. simpl. rewrite !length_app. lia. }
    assert (HmS : m (S k) = (m k + length dofs)%nat).
    { unfold m. rewrite (take_S_r _ _ _ Hdofs), concat_app. simpl.
      rewrite length_app, app_nil_r. reflexivity. }
    assert (HRS : forall get,
              R get (S k)
              = R get k ++ (PrimFloat.add dzero <$> Vector_select (get nd) dofs)).
    { intros get. unfold R.
      rewrite (take_S_r _ _ _ Hdofs), (take_S_r _ _ _ Hnd).
      apply pushed_snoc. exact Hlk. }
    assert (Hstep : forall get,
              Vector_AssembleAt (Vector_select (get nd) dofs) (Z.of_nat (m k))
                (R get k ++ replicate (n - m k) dzero)
              = R get (S k) ++ replicate (n - m (S k)) dzero).
    { intros get. rewrite HRS, HmS, <- (HR get).
      replace (n - length (R get k))%nat
        with (length (Vector_select (get nd) dofs)
              + (n - (length (R get k) + length dofs)))%nat
        by (rewrite Vector_select_length, HR; lia).
      rewrite replicate_add.
      rewrite Vector_AssembleAt_app by (rewrite length_replicate; reflexivity).
      rewrite zip_with_add_zero, <- app_assoc. reflexivity. }
    assert (HlR : forall get,
              length (R get k ++ replicate (n - m k) dzero) = n)
      by (intros get; rewrite length_app, HR, length_replicate; lia).
    rewrite (push_db s c rest n Hdb)
      by (rewrite ?Vector_AssembleAt_length; first [apply HlR | reflexivity]).
    rewrite bind_Done.
    rewrite (push_vb s c rest n Hvb)
      by (rewrite ?Vector_AssembleAt_length, ?Hstep, ?length_app, ?HR,
            ?length_replicate; first [apply HlR | reflexivity | lia]).
    rewrite bind_Done.
    rewrite (push_ab s c rest n Hab)
      by (rewrite ?Vector_AssembleAt_length, ?Hstep, ?length_app, ?HR,
            ?length_replicate; first [apply HlR | reflexivity | lia]).
    rewrite bind_Done.
    eexists. split; [reflexivity |]. simpl. rewrite !Hstep. split.
    + reflexivity.
    + rewrite HmS. unfold ID_Size. lia.
  - destruct st as [st ndim]. simpl in Hst. subst st. rewrite bind_Done.
    cbn beta iota.
    assert (Hall : forall get,
              R get (length nds) ++ replicate (n - m (length nds)) dzero
              = pushed get sel nds).
    { intros get. unfold R, m. rewrite !firstn_all2 by lia.
      fold n. rewrite Nat.sub_diag. apply app_nil_r. }
    rewrite !Hall.
    (* the command code and the message *)
    rewrite (sData_store_ok _ _ (laid_out c rest (pushed getTrialDisp sel nds)
                                   (pushed getTrialVel sel nds)
                                   (pushed getTrialAccel sel nds) tm))
      by (reflexivity || (simpl; lia)).
    rewrite bind_Done. cbn [sendData set_sData]. rewrite HsD.
    assert (Hmsg : message (code ext RemoteTest_setTrialResponse)
                     (laid_out c rest (pushed getTrialDisp sel nds)
                        (pushed getTrialVel sel nds)
                        (pushed getTrialAccel sel nds) tm)
                   = trial_buffer ext dom sel nds sb) by reflexivity.
    rewrite Hmsg.
    rewrite (theChannel_sendVector_ok _ ch (trial_buffer ext dom sel nds sb)).
    + rewrite bind_Done. reflexivity.
    + exact Hc.
    + reflexivity.
    + rewrite <- Hmsg, message_length, <- Hls.
      apply (f_equal length) in Hsb. rewrite Hsb.
      unfold laid_out. simpl. rewrite !length_app. simpl.
      rewrite !pushed_length by lia. fold n. lia.
Qed.

End Update.

(** ** The life cycle of the connection *)

Section Lifecycle.

Context (ext : Collaborators).


Lemma setupConnection_refused remote s :
  accepting remote = false ->
  setupConnection ext remote s
  = Done (-2, set_theChannel
                (Some (log setUpConnection (new_channel ext remote s))) s).
Proof.
  intros Hacc. unfold setupConnection.
  fold (new_channel ext remote s).
  unfold theChannel_setUpConnection. cbn [theChannel set_theChannel deref].
  rewrite bind_Done. cbn [Channel_setUpConnection fst snd].
  replace (alive (new_channel ext remote s)) with false
    by (unfold new_channel; simpl; congruence).
  simpl status. rewrite bind_Done. cbn beta iota.
  rewrite decide_True by lia.
  destruct s. reflexivity.
Qed.


Lemma update_refused remote dom s :
  theChannel s = None -> accepting remote = false ->
  update ext remote dom s
  = Done (-1, set_theChannel
                (Some (log setUpConnection (new_channel ext remote s))) s).
Proof.
  intros Hc Hacc. unfold update.
  rewrite Hc, (setupConnection_refused remote s Hacc), bind_Done.
  cbn beta iota. rewrite decide_True by lia. reflexivity.
Qed.

End Lifecycle.

(** ** Every operation keeps the connection established *)

Lemma after_exchange_Connected' cmd s sb rb ch :
  Connected s ->
  Z.of_nat (length sb) = dataSize s -> Z.of_nat (length rb) = dataSize s ->
  Connected (after_exchange cmd sb rb ch s).
Proof.
  intros HC Hls Hlr.
  apply (Connected_transfer s); [exact HC | reflexivity | | |]; cbn.
  - eexists; reflexivity.
  - eexists. split; [reflexivity |]. rewrite message_length. exact Hls.
  - eexists. split; [reflexivity |]. rewrite received_length. exact Hlr.
Qed.

Lemma fetched_Connected cmd s sb rb ch :
  Connected s -> sData s = Some sb -> rData s = Some rb ->
  Connected (fetched cmd sb rb ch s).
Proof.
  intros HC Hs Hr. pose proof HC as [_ Hn _ H2 Hs' Hr' _ _ _ _ _ _ _ _].
  destruct Hs' as (sb' & Hs' & Hls). destruct Hr' as (rb' & Hr' & Hlr).
  assert (sb' = sb) by congruence. assert (rb' = rb) by congruence.
  subst sb' rb'.
  apply after_exchange_Connected'; [exact HC | exact Hls |].
  rewrite zeroed_front_length by lia. exact Hlr.
Qed.

Lemma Connected_same_io s s' :
  Connected s -> io_erase (query_erase s') = io_erase (query_erase s) ->
  theChannel s' = theChannel s -> sData s' = sData s -> rData s' = rData s ->
  Connected s'.
Proof.
  intros HC E Hc Hs Hr. pose proof HC as [Hc0 _ _ _ Hs0 Hr0 _ _ _ _ _ _ _ _].
  apply (Connected_transfer s); [exact HC | exact E | | |];
    rewrite ?Hc, ?Hs, ?Hr; assumption.
Qed.

Section Invariant.

Context (ext : Collaborators).

Lemma commitState_ok s sb ch :
  Connected s -> sData s = Some sb -> theChannel s = Some ch ->
  let msg := message (code ext RemoteTest_commitState) sb in
  commitState ext s
  = Done (0 + status (alive ch) + Element_commitState ext,
          set_theChannel (Some (log (sendVector msg) ch))
            (set_sData (Some msg) s)).
Proof.
  intros HC Hs Hc msg.
  pose proof HC as [_ Hn H1 _ Hs' _ HsD _ _ _ _ _ _ _].
  destruct Hs' as (sb' & Hs' & Hls). assert (sb' = sb) by congruence.
  subst sb'.
  unfold commitState.
  rewrite (sData_store_ok _ _ sb) by (assumption || lia).
  rewrite bind_Done. cbn [sendData set_sData]. rewrite HsD.
  rewrite (theChannel_sendVector_ok _ ch msg);
    [| exact Hc | reflexivity | unfold msg; rewrite message_length; exact Hls].
  reflexivity.
Qed.

Lemma GenericClient_delete_ok s sb ch :
  Connected s -> sData s = Some sb -> theChannel s = Some ch ->
  GenericClient_delete ext s
  = Done (Some (log (sendVector (message (code ext RemoteTest_DIE) sb)) ch)).
Proof.
  intros HC Hs Hc.
  pose proof HC as [_ Hn H1 _ Hs' _ HsD _ _ _ _ _ _ _].
  destruct Hs' as (sb' & Hs' & Hls). assert (sb' = sb) by congruence.
  subst sb'.
  unfold GenericClient_delete. rewrite Hc.
  rewrite (sData_store_ok _ _ sb) by (assumption || lia).
  rewrite bind_Done. cbn [sendData set_sData]. rewrite HsD.
  rewrite (theChannel_sendVector_ok _ ch
             (message (code ext RemoteTest_DIE) sb));
    [| exact Hc | reflexivity | rewrite message_length; exact Hls].
  reflexivity.
Qed.

End Invariant.

(** ** Attachment and detachment *)

Lemma set_theNodes_eta s s' :
  set_theNodes [] s' = set_theNodes [] s -> s' = set_theNodes (theNodes s') s.
Proof.
  intros E. apply (f_equal (set_theNodes (theNodes s'))) in E.
  destruct s'. exact E.
Qed.

(** The first loop of [setDomain]: every node pointer is looked up. *)
Lemma setDomain_pointers dom s :
  numExternalNodes s = ID_Size (connectedExternalNodes s) ->
  length (theNodes s) = length (connectedExternalNodes s) ->
  for_upto (numExternalNodes s)
    (fun i s =>
       tag ← index (connectedExternalNodes s) i;
       tn ← assign (theNodes s) (Z.of_nat i) (Domain_getNode dom tag);
       Done (set_theNodes tn s)) s
  = Done (set_theNodes (Domain_getNode dom <$> connectedExternalNodes s) s).
Proof.
  intros Hn HlN. unfold for_upto. rewrite Hn.
  unfold ID_Size. rewrite Nat2Z.id.
  set (tags := connectedExternalNodes s) in *.
  edestruct (for_loop_inv
    (fun k s1 =>
       theNodes s1 = (Domain_getNode dom <$> take k tags)
                     ++ drop k (theNodes s) /\
       set_theNodes [] s1 = set_theNodes [] s)) as (s1 & Hrun & HN & HE);
    [ | | rewrite Hrun ].
  - simpl. rewrite drop_0. split; reflexivity.
  - intros k s1 Hk [HN HE]. simpl.
    same_field HE connectedExternalNodes. fold tags in E.
    destruct (lookup_lt_is_Some_2 tags k) as [tag Htag]; [lia |].
    destruct (lookup_lt_is_Some_2 (theNodes s) k) as [p Hp]; [lia |].
    rewrite E, (index_Some _ _ _ Htag), bind_Done.
    assert (Hlt : length (take k tags) = k) by (rewrite length_take; lia).
    rewrite assign_ok, bind_Done.
    2:{ rewrite HN, length_app, length_fmap, Hlt, length_drop. lia. }
    eexists. split; [reflexivity |]. split; [| exact HE].
    cbn. rewrite HN, (take_S_r _ _ _ Htag), fmap_app, <- app_assoc.
    rewrite (drop_S _ _ _ Hp).
    rewrite insert_app_r_alt by (rewrite length_fmap; lia).
    rewrite length_fmap, Hlt, Nat.sub_diag. reflexivity.
  - f_equal. rewrite (set_theNodes_eta s s1 HE). f_equal.
    rewrite HN, firstn_all, drop_ge, app_nil_r by lia. reflexivity.
Qed.

(** The second loop of [setDomain]: is some node pointer null? *)
Lemma setDomain_missing (ptrs : list (option Z)) :
  for_upto (Z.of_nat (length ptrs))
    (fun i found => p ← index ptrs i;
                    Done (found || bool_decide (p = None))) false
  = Done (bool_decide (Exists (fun p => p = None) ptrs)).
Proof.
  unfold for_upto. rewrite Nat2Z.id.
  edestruct (for_loop_inv
    (fun k (b : bool) =>
       b = bool_decide (Exists (fun p => p = None) (take k ptrs))))
    as (b & Hrun & ->); [ | | rewrite Hrun ].
  - reflexivity.
  - intros k b Hk ->. simpl.
    destruct (lookup_lt_is_Some_2 ptrs k) as [p Hp]; [lia |].
    rewrite (index_Some _ _ _ Hp), bind_Done.
    eexists. split; [reflexivity |].
    rewrite (take_S_r _ _ _ Hp).
    apply eq_true_iff_eq. rewrite orb_true_iff, !bool_decide_eq_true.
    rewrite Exists_app, Exists_cons, Exists_nil. tauto.
  - rewrite firstn_all. reflexivity.
Qed.

Lemma Matrix_Zero_rows (m : Matrix) k :
  Forall (fun row => length row = k) m ->
  Matrix_Zero m = replicate (length m) (replicate k dzero).
Proof.
  unfold Matrix_Zero. induction 1 as [|row m Hrow _ IH]; [reflexivity |].
  rewrite fmap_cons, IH. simpl. unfold Vector_Zero. rewrite Hrow.
  reflexivity.
Qed.

(** Resizing and zeroing a matrix gives the zero matrix of that size. *)
Lemma Matrix_Zero_resize r c m :
  Matrix_Zero (Matrix_resize r c m) = Matrix_new r c.
Proof.
  unfold Matrix_resize, Matrix_new.
  rewrite (Matrix_Zero_rows _ (Z.to_nat c)).
  - rewrite length_resize. reflexivity.
  - apply Forall_resize.
    + unfold Vector_new. apply length_replicate.
    + apply Forall_fmap, Forall_true. intros row. simpl.
      unfold Vector_resize. apply length_resize.
Qed.

Lemma Vector_Zero_resize n v : Vector_Zero (Vector_resize n v) = Vector_new n.
Proof.
  unfold Vector_Zero, Vector_resize, Vector_new. rewrite length_resize.
  reflexivity.
Qed.

(** [setDomain] with every node present. *)
Lemma setDomain_attached dom s nds :
  Built s -> Resolved dom (connectedExternalNodes s) nds ->
  setDomain (Some dom) s = Done (attached_state s nds).
Proof.
  intros HB HR. pose proof HB as [Hn HlN HlD HnB HbD].
  pose proof (Forall2_length _ _ _ HR) as Hlen.
  unfold setDomain. rewrite (setDomain_pointers dom s Hn HlN), bind_Done.
  set (tags := connectedExternalNodes s) in *.
  assert (Hres : Domain_getNode dom <$> tags = Some <$> tags).
  { apply list_fmap_ext. intros i tag Htag.
    apply (Domain_getNode_resolved dom tags nds i tag HR Htag). }
  rewrite Hres.
  set (s1 := set_theNodes (Some <$> tags) s).
  change (numExternalNodes s1) with (numExternalNodes s).
  change (theNodes s1) with (Some <$> tags).
  (* no node is missing *)
  assert (Hmiss : numExternalNodes s
                  = Z.of_nat (length (Some <$> tags : list (option Z)))).
  { rewrite length_fmap. exact Hn. }
  rewrite Hmiss at 1. rewrite setDomain_missing, bind_Done.
  rewrite bool_decide_eq_false_2.
  2:{ rewrite Exists_exists. intros (p & Hin & ->).
      apply list_elem_of_fmap in Hin as (tag & Heq & _). discriminate. }
  (* the number of dof *)
  assert (Hnum : for_upto (numExternalNodes s)
            (fun i acc => p ← index (Some <$> tags) i;
                          nd ← node_at dom p;
                          Done (acc + getNumberDOF nd)) 0
          = Done (sumZ (getNumberDOF <$> nds))).
  { unfold for_upto. rewrite Hn. unfold ID_Size. rewrite Nat2Z.id.
    edestruct (for_loop_inv
      (fun k acc => acc = sumZ (getNumberDOF <$> take k nds)))
      as (acc & Hacc & ->); [reflexivity | | rewrite Hacc].
    - intros k acc Hk ->. simpl.
      destruct (lookup_lt_is_Some_2 nds k) as [nd Hnd]; [lia |].
      destruct (node_at_resolved _ _ _ _ _ HR Hnd) as (tag & Htag & Hat).
      rewrite (index_Some _ _ (Some tag))
        by (rewrite list_lookup_fmap; fold tags; rewrite Htag; reflexivity).
      rewrite bind_Done, Hat, bind_Done.
      eexists. split; [reflexivity |].
      rewrite (take_S_r _ _ _ Hnd), fmap_app, sumZ_app. simpl. lia.
    - rewrite firstn_all2 by lia. reflexivity. }
  rewrite Hnum, bind_Done.
  destruct (setDomain_basicDOF_spec dom
              (set_numDOF (sumZ (getNumberDOF <$> nds)) s1) tags nds)
    as (k & ndf & Hbd); cbn; try assumption; try reflexivity.
  - unfold ID_Size in HbD. rewrite HbD. exact HnB.
  - rewrite Hbd, bind_Done. reflexivity.
Qed.

(** [setDomain] with the null domain. *)
Lemma setDomain_detach s :
  numExternalNodes s = Z.of_nat (length (theNodes s)) ->
  setDomain None s
  = Done (set_theNodes (replicate (length (theNodes s)) None) s).
Proof.
  intros Hn. unfold setDomain, for_upto. rewrite Hn, Nat2Z.id.
  edestruct (for_loop_inv
    (fun k s1 =>
       theNodes s1 = replicate k None ++ drop k (theNodes s) /\
       set_theNodes [] s1 = set_theNodes [] s)) as (s1 & Hrun & HN & HE);
    [ | | rewrite Hrun ].
  - simpl. rewrite drop_0. split; reflexivity.
  - intros k s1 Hk [HN HE]. simpl.
    destruct (lookup_lt_is_Some_2 (theNodes s) k) as [p Hp]; [lia |].
    rewrite assign_ok, bind_Done.
    2:{ rewrite HN, length_app, length_replicate, length_drop. lia. }
    eexists. split; [reflexivity |]. split; [| exact HE].
    cbn. rewrite HN, (drop_S _ _ _ Hp).
    rewrite insert_app_r_alt by (rewrite length_replicate; lia).
    rewrite length_replicate, Nat.sub_diag. simpl.
    generalize (drop (S k) (theNodes s)). clear. intros l.
    induction k as [|k IH]; [reflexivity |]. simpl. rewrite IH.
    reflexivity.
  - f_equal. rewrite (set_theNodes_eta s s1 HE). f_equal.
    rewrite HN, drop_all, app_nil_r. reflexivity.
Qed.

(** [setDomain] when a node is not in the domain. *)
Lemma setDomain_absent dom s tag :
  numExternalNodes s = ID_Size (connectedExternalNodes s) ->
  length (theNodes s) = length (connectedExternalNodes s) ->
  tag ∈ connectedExternalNodes s -> nodes dom !! tag = None ->
  setDomain (Some dom) s
  = Done (set_theNodes (Domain_getNode dom <$> connectedExternalNodes s) s).
Proof.
  intros Hn HlN Hin Hnone.
  unfold setDomain. rewrite (setDomain_pointers dom s Hn HlN), bind_Done.
  set (ptrs := Domain_getNode dom <$> connectedExternalNodes s).
  change (numExternalNodes (set_theNodes ptrs s)) with (numExternalNodes s).
  change (theNodes (set_theNodes ptrs s)) with ptrs.
  assert (Hl : numExternalNodes s = Z.of_nat (length ptrs)).
  { unfold ptrs. rewrite length_fmap. exact Hn. }
  rewrite Hl at 1. rewrite setDomain_missing, bind_Done.
  rewrite bool_decide_eq_true_2; [reflexivity |].
  rewrite Exists_exists. exists None. split; [| reflexivity].
  unfold ptrs. apply list_elem_of_fmap. exists tag. split; [| exact Hin].
  unfold Domain_getNode. rewrite Hnone. reflexivity.
Qed.

(** Whatever [setDomain] does, it writes nothing but the node pointers,
    the DOF count, the index set, the full-space containers and the domain
    pointer. *)
Lemma setDomain_frame d s s' :
  setDomain d s = Done s' -> attach_erase s' = attach_erase s.
Proof.
  assert (Hloop : forall n (body : nat -> GenericClient -> Outcome GenericClient) st,
            (forall i st st', body i st = Done st' ->
                              set_theNodes [] st' = set_theNodes [] st) ->
            for_upto n body s = Done st ->
            set_theNodes [] st = set_theNodes [] s).
  { intros n body st Hbody Hrun. unfold for_upto in Hrun.
    apply (for_loop_preserves
             (fun st => set_theNodes [] st = set_theNodes [] s)
             body 0%nat (Z.to_nat n) s st); [| reflexivity | exact Hrun].
    intros i st1 st2 HP Hb. rewrite (Hbody i st1 st2 Hb). exact HP. }
  destruct d as [dom |]; unfold setDomain.
  - destruct (for_upto (numExternalNodes s) _ s) as [s1 |] eqn:Hrun;
      [| discriminate].
    rewrite bind_Done.
    assert (HE : set_theNodes [] s1 = set_theNodes [] s).
    { refine (Hloop _ _ _ _ Hrun). intros i st st' Hb.
      destruct (index (connectedExternalNodes st) i) as [tag |];
        [| discriminate].
      rewrite bind_Done in Hb.
      destruct (assign (theNodes st) (Z.of_nat i) _) as [tn |];
        [| discriminate].
      rewrite bind_Done in Hb. injection Hb as <-. reflexivity. }
    revert HE. clear Hrun. intros HE.
    destruct (for_upto (numExternalNodes s1) _ false) as [[|] |];
      [| | discriminate]; rewrite bind_Done.
    + intros [= <-]. apply (f_equal attach_erase) in HE. exact HE.
    + destruct (for_upto (numExternalNodes s1) _ 0) as [nd |];
        [| discriminate].
      rewrite bind_Done.
      destruct (setDomain_basicDOF dom _) as [[[bd k] ndf] |];
        [| discriminate].
      rewrite bind_Done. intros [= <-].
      apply (f_equal attach_erase) in HE. exact HE.
  - intros Hrun.
    assert (HE : set_theNodes [] s' = set_theNodes [] s).
    { refine (Hloop _ _ _ _ Hrun). intros i st st' Hb.
      destruct (assign (theNodes st) (Z.of_nat i) None) as [tn |];
        [| discriminate].
      rewrite bind_Done in Hb. injection Hb as <-. reflexivity. }
    apply (f_equal attach_erase) in HE. exact HE.
Qed.

(** ** What a query leaves behind *)


Lemma Queried_intro cmd s s' sb rb ch :
  Connected s -> sData s = Some sb -> theChannel s = Some ch ->
  Z.of_nat (length rb) = dataSize s ->
  query_erase s' = query_erase s ->
  sData s' = Some (message cmd sb) ->
  rData s' = Some (received cmd sb rb ch).1.2 ->
  theChannel s' = Some (received cmd sb rb ch).2 ->
  Queried cmd s s'.
Proof.
  intros HC Hs Hc Hlr E Hs' Hr' Hc'.
  pose proof HC as [_ _ _ _ (sb0 & Hs0 & Hls) _ _ _ _ _ _ _ _ _].
  assert (sb0 = sb) by congruence. subst sb0.
  constructor.
  - apply (Connected_transfer s); [exact HC | exact E | | |].
    + rewrite Hc'. eexists; reflexivity.
    + eexists. split; [exact Hs' |]. rewrite message_length. exact Hls.
    + eexists. split; [exact Hr' |]. rewrite received_length. exact Hlr.
  - exact E.
  - exists sb. split; [exact Hs |]. split; [exact Hs' |].
    unfold calls_of. rewrite Hc', Hc, received_calls.
    unfold Vector_Size. rewrite Hlr. reflexivity.
Qed.


Lemma Connected_rData_size s rb :
  Connected s -> rData s = Some rb -> Z.of_nat (length rb) = dataSize s.
Proof.
  intros [_ _ _ _ _ (rb' & Hr' & Hlr) _ _ _ _ _ _ _ _] Hr. congruence.
Qed.

Section Summaries.

Context (ext : Collaborators).





Lemma getResistingForce_Queried s :
  Connected s ->
  exists s',
    getResistingForce ext s = Done (ref_theVector, s') /\
    Queried (code ext RemoteTest_getForce) s s' /\
    initStiffFlag s' = initStiffFlag s /\ massFlag s' = massFlag s.
Proof.
  intros HC. destruct (Connected_buffers s HC) as (sb & rb & ch & Hs & Hr & Hc & _).
  eexists. split; [apply (getResistingForce_ok ext s sb rb ch); assumption |].
  split; [| split; reflexivity].
  apply (Queried_intro _ s _ sb rb ch); try assumption; try reflexivity.
  apply Connected_rData_size; assumption.
Qed.

End Summaries.

(** ** Operations that combine queries *)



Lemma Queried_set_theVector cmd s s' v :
  Queried cmd s s' -> Queried cmd s (set_theVector v s').
Proof.
  intros [HC E Ht]. constructor.
  - apply Connected_set_theVector. exact HC.
  - rewrite <- E. reflexivity.
  - exact Ht.
Qed.


Section Combined.

Context (ext : Collaborators).




End Combined.
(* ===================================================================== *)
(** * Further properties of the element *)

(** ** Facts about the concrete instance *)

Lemma element_2x3_Built : Built element_2x3.
Proof. constructor; reflexivity. Qed.

Lemma element_2x3_Unconnected : Unconnected element_2x3.
Proof. constructor; reflexivity. Qed.

Lemma element_2x3_Attached :
  Attached domain_2x3 element_2x3 [node_1; node_2].
Proof.
  constructor; try reflexivity.
  repeat constructor; eexists; (split; [reflexivity | reflexivity]).
Qed.

Lemma connected_2x3_Connected : Connected connected_2x3.
Proof.
  constructor; try reflexivity; try (vm_compute; discriminate);
    try (eexists; reflexivity);
    eexists; (split; [reflexivity | reflexivity]).
Qed.

Lemma connected_2x3_Attached :
  Attached domain_2x3 connected_2x3 [node_1; node_2].
Proof.
  constructor; try reflexivity.
  repeat constructor; eexists; (split; [reflexivity | reflexivity]).
Qed.

(** ** The connection handshake *)



(** X2. When the remote side refuses the connection, the first [update]
    returns -1; the channel has seen the connection set-up and nothing
    else (no sizing message, no trial response), no buffer is allocated,
    and the channel pointer is left set. *)
Theorem update_refused_connection ext remote dom s :
  theChannel s = None -> accepting remote = false ->
  exists ch,
    update ext remote dom s = Done (-1, set_theChannel (Some ch) s) /\
    calls ch = [setUpConnection] /\ alive ch = false.
Proof.
  intros Hc Hacc. eexists. split; [apply update_refused; assumption |].
  split; [reflexivity |]. simpl. exact Hacc.
Qed.

Lemma update_refused_connection_witness :
  exists ch,
    update no_rayleigh remote_down domain_2x3 element_2x3
    = Done (-1, set_theChannel (Some ch) element_2x3) /\
    calls ch = [setUpConnection] /\ alive ch = false.
Proof.
  apply (update_refused_connection no_rayleigh remote_down domain_2x3
           element_2x3); reflexivity.
Defined.



(** ** The trial-state push *)

Lemma trial_buffer_size ext dom sel nds sb :
  length sel = length nds ->
  (3 * length (concat sel) + 2 <= length sb)%nat ->
  length (trial_buffer ext dom sel nds sb) = length sb.
Proof.
  intros Hl Hsb. unfold trial_buffer. simpl.
  rewrite !length_app. simpl. rewrite !pushed_length by exact Hl.
  rewrite length_drop. lia.
Qed.

Lemma after_update_Connected ext dom s nds sb ch :
  Connected s -> Attached dom s nds ->
  numBasicDOF s = sumZ (ID_Size <$> theDOF s) -> sData s = Some sb ->
  Connected (after_update ext dom nds sb ch s).
Proof.
  intros HC HA HnB Hs.
  pose proof HC as [_ Hn H1 _ (sb' & Hs' & Hls) Hr _ _ _ _ _ _ _ _].
  assert (sb' = sb) by congruence. subst sb'.
  pose proof HA as [_ _ HlD _].
  apply (Connected_transfer s); [exact HC | reflexivity | | | exact Hr]; cbn.
  - eexists; reflexivity.
  - eexists. split; [reflexivity |].
    rewrite trial_buffer_size; [exact Hls | exact HlD |].
    pose proof (concat_length_sumZ (theDOF s)). lia.
Qed.








(** ** Queries on an established connection *)



(** X7. [commitState] on an established connection sends one message,
    the transmit buffer with the commit code in front, and reads nothing.
    Its return value is the status of that send plus the status of the
    base-class commit, so on a dead channel it is the base status minus
    one.  Nothing but the first entry of the transmit buffer and the
    channel is written. *)
Theorem commitState_status ext s sb ch :
  Connected s -> sData s = Some sb -> theChannel s = Some ch ->
  exists s',
    commitState ext s
    = Done ((if alive ch then 0 else -1) + Element_commitState ext, s') /\
    theChannel s'
    = Some (log (sendVector (message (code ext RemoteTest_commitState) sb))
                ch) /\
    sData s' = Some (message (code ext RemoteTest_commitState) sb) /\
    rData s' = rData s /\
    io_erase s' = io_erase s.
Proof.
  intros HC Hs Hc. eexists.
  split; [rewrite (commitState_ok ext s sb ch HC Hs Hc) |].
  - destruct (alive ch); reflexivity.
  - repeat split.
Qed.

Lemma commitState_status_witness :
  exists s',
    commitState no_rayleigh connected_2x3 = Done (0, s') /\
    calls_of s'
    = calls_of connected_2x3
      ++ [sendVector [5; 1; 2; 4; 0.25; 0; 0.5; 0; 0; 0; 0.5]%float].
Proof.
  destruct (commitState_status no_rayleigh connected_2x3
              [3; 1; 2; 4; 0.25; 0; 0.5; 0; 0; 0; 0.5]%float
              (mkChannel TCP_Socket 8090 "127.0.0.1" true
                 (calls_of connected_2x3) (replies remote_up))
              connected_2x3_Connected eq_refl eq_refl)
    as (s' & Hrun & Hch & _).
  exists s'. split; [exact Hrun |].
  unfold calls_of at 1. rewrite Hch. reflexivity.
Defined.

(** ** Attachment *)

(** X8. Detaching (the null domain) clears every node pointer and writes
    nothing else: DOF count, index set, containers, connection and even
    the domain pointer of the base class stay as they were. *)
Theorem setDomain_null_domain s :
  numExternalNodes s = Z.of_nat (length (theNodes s)) ->
  exists s',
    setDomain None s = Done s' /\
    theNodes s' = replicate (length (theNodes s)) None /\
    set_theNodes [] s' = set_theNodes [] s.
Proof.
  intros Hn. eexists. split; [apply setDomain_detach; exact Hn |].
  split; reflexivity.
Qed.

Lemma setDomain_null_domain_witness :
  exists s',
    setDomain None element_2x3 = Done s' /\
    theNodes s' = [None; None] /\
    set_theNodes [] s' = set_theNodes [] element_2x3.
Proof.
  apply (setDomain_null_domain element_2x3). reflexivity.
Defined.

(** X9. When a connected node is not in the domain, [setDomain] returns
    without failing and leaves the element inert: every pointer is set to
    what the lookup gave (null for the absent nodes), and DOF count,
    index set, containers and domain pointer are not written. *)
Theorem setDomain_missing_node dom s tag :
  numExternalNodes s = ID_Size (connectedExternalNodes s) ->
  length (theNodes s) = length (connectedExternalNodes s) ->
  tag ∈ connectedExternalNodes s -> nodes dom !! tag = None ->
  exists s',
    setDomain (Some dom) s = Done s' /\
    theNodes s' = Domain_getNode dom <$> connectedExternalNodes s /\
    None ∈ theNodes s' /\
    set_theNodes [] s' = set_theNodes [] s.
Proof.
  intros Hn HlN Hin Hnone. eexists.
  split; [apply (setDomain_absent dom s tag); assumption |].
  split; [reflexivity |]. split; [| reflexivity].
  cbn. apply list_elem_of_fmap. exists tag. split; [| exact Hin].
  unfold Domain_getNode. rewrite Hnone. reflexivity.
Qed.

Lemma setDomain_missing_node_witness :
  exists s',
    setDomain (Some (mkDomain (<[1 := node_1]> ∅) 0%float)) element_2x3
    = Done s' /\
    theNodes s' = [Some 1; None] /\
    numDOF s' = numDOF element_2x3 /\
    basicDOF s' = basicDOF element_2x3.
Proof.
  destruct (setDomain_missing_node
              (mkDomain (<[1 := node_1]> ∅) 0%float) element_2x3 2)
    as (s' & Hrun & HN & _ & HE).
  - reflexivity.
  - reflexivity.
  - vm_compute. apply list_elem_of_In. right. left. reflexivity.
  - reflexivity.
  - exists s'. split; [exact Hrun |]. split; [exact HN |].
    split; [exact (f_equal numDOF HE) | exact (f_equal basicDOF HE)].
Defined.

(** X10. A successful [setDomain] resolves every node pointer, sets numDOF
    to the sum of the node DOF counts, sets the domain pointer, and leaves
    the five full-space containers zero at size numDOF (x numDOF),
    whatever they held before. *)
Theorem setDomain_sizes_containers dom s nds :
  Built s -> Resolved dom (connectedExternalNodes s) nds ->
  exists s',
    setDomain (Some dom) s = Done s' /\
    theNodes s' = Some <$> connectedExternalNodes s /\
    theDomain s' = true /\
    numDOF s' = sumZ (getNumberDOF <$> nds) /\
    theMatrix s' = Matrix_new (numDOF s') (numDOF s') /\
    theInitStiff s' = Matrix_new (numDOF s') (numDOF s') /\
    theMass s' = Matrix_new (numDOF s') (numDOF s') /\
    theVector s' = Vector_new (numDOF s') /\
    theLoad s' = Vector_new (numDOF s').
Proof.
  intros HB HR. exists (attached_state s nds).
  split; [apply setDomain_attached; assumption |].
  unfold attached_state. fields.
  rewrite !Matrix_Zero_resize, !Vector_Zero_resize.
  repeat split.
Qed.

Lemma setDomain_sizes_containers_witness :
  exists s',
    setDomain (Some domain_2x3) element_2x3 = Done s' /\
    numDOF s' = 6 /\ theVector s' = Vector_new 6 /\
    theMass s' = Matrix_new 6 6.
Proof.
  destruct (setDomain_sizes_containers domain_2x3 element_2x3
              [node_1; node_2] element_2x3_Built)
    as (s' & Hrun & _ & _ & Hn & _ & _ & HM & HV & _).
  - repeat constructor.
  - exists s'. split; [exact Hrun |]. split; [exact Hn |].
    rewrite HV, HM, Hn. split; reflexivity.
Defined.

(** X11. Whatever [setDomain] is given and however it ends, it never
    touches the connection: channel, both buffers, every view, the buffer
    capacity, numBasicDOF, the DOF selections and the two cache flags are
    as before. *)
Theorem setDomain_keeps_connection d s s' :
  setDomain d s = Done s' ->
  theChannel s' = theChannel s /\ sData s' = sData s /\
  rData s' = rData s /\ dataSize s' = dataSize s /\
  numBasicDOF s' = numBasicDOF s /\ theDOF s' = theDOF s /\
  initStiffFlag s' = initStiffFlag s /\ massFlag s' = massFlag s /\
  (Connected s -> Connected s').
Proof.
  intros Hrun. pose proof (setDomain_frame d s s' Hrun) as E.
  pose proof (f_equal theChannel E) as E1. cbn in E1.
  pose proof (f_equal sData E) as E2. cbn in E2.
  pose proof (f_equal rData E) as E3. cbn in E3.
  pose proof (f_equal dataSize E) as E4. cbn in E4.
  pose proof (f_equal numBasicDOF E) as E5. cbn in E5.
  pose proof (f_equal theDOF E) as E6. cbn in E6.
  pose proof (f_equal initStiffFlag E) as E7. cbn in E7.
  pose proof (f_equal massFlag E) as E8. cbn in E8.
  repeat (split; [assumption |]).
  pose proof (f_equal sendData E) as F1. cbn in F1.
  pose proof (f_equal db E) as F2. cbn in F2.
  pose proof (f_equal vb E) as F3. cbn in F3.
  pose proof (f_equal ab E) as F4. cbn in F4.
  pose proof (f_equal t E) as F5. cbn in F5.
  pose proof (f_equal recvData E) as F6. cbn in F6.
  pose proof (f_equal qDaq E) as F7. cbn in F7.
  pose proof (f_equal rMatrix E) as F8. cbn in F8.
  intros []. constructor;
    rewrite ?E1, ?E2, ?E3, ?E4, ?E5, ?F1, ?F2, ?F3, ?F4, ?F5, ?F6, ?F7, ?F8;
    assumption.
Qed.

Lemma setDomain_keeps_connection_witness :
  exists s',
    setDomain (Some domain_2x3) connected_2x3 = Done s' /\
    theChannel s' = theChannel connected_2x3 /\
    sData s' = sData connected_2x3 /\ Connected s'.
Proof.
  destruct (setDomain (Some domain_2x3) connected_2x3) as [s' |] eqn:Hrun.
  - destruct (setDomain_keeps_connection (Some domain_2x3) connected_2x3 s'
                Hrun) as (H1 & H2 & _ & _ & _ & _ & _ & _ & HC).
    exists s'. split; [reflexivity |]. split; [exact H1 |].
    split; [exact H2 | exact (HC connected_2x3_Connected)].
  - vm_compute in Hrun. discriminate Hrun.
Defined.

(** X12. Re-attaching does not invalidate the caches: when initial
    stiffness and mass were fetched before, a later successful
    [setDomain] zeroes both matrices but leaves both flags set, so from
    then on [getInitialStiff] and [getMass] hand out the zero matrix of
    size numDOF and never go to the channel again. *)
Theorem reattach_leaves_zero_caches ext dom s nds :
  Built s -> Resolved dom (connectedExternalNodes s) nds ->
  initStiffFlag s = true -> massFlag s = true ->
  exists s',
    setDomain (Some dom) s = Done s' /\
    getInitialStiff ext s' = Done (ref_theInitStiff, s') /\
    getMass ext s' = Done (ref_theMass, s') /\
    matrix_at ref_theInitStiff s' = Matrix_new (numDOF s') (numDOF s') /\
    matrix_at ref_theMass s' = Matrix_new (numDOF s') (numDOF s').
Proof.
  intros HB HR Hk Hm. exists (attached_state s nds).
  split; [apply setDomain_attached; assumption |].
  unfold getInitialStiff, getMass, matrix_at, attached_state. fields.
  rewrite Hk, Hm, !Matrix_Zero_resize. repeat split.
Qed.

Lemma cached_2x3_Built : Built cached_2x3.
Proof. constructor; reflexivity. Qed.

Lemma reattach_leaves_zero_caches_witness :
  exists s',
    setDomain (Some domain_2x3) cached_2x3 = Done s' /\
    getInitialStiff no_rayleigh s' = Done (ref_theInitStiff, s') /\
    getMass no_rayleigh s' = Done (ref_theMass, s') /\
    matrix_at ref_theInitStiff s' = Matrix_new (numDOF s') (numDOF s') /\
    matrix_at ref_theMass s' = Matrix_new (numDOF s') (numDOF s').
Proof.
  apply (reattach_leaves_zero_caches no_rayleigh domain_2x3 cached_2x3
           [node_1; node_2] cached_2x3_Built).
  - repeat constructor.
  - reflexivity.
  - reflexivity.
Defined.

(** ** Operations that combine queries *)





(** ** The recorder interface *)

(** X15. [getResponse] by response id.  An id outside 1..6 returns -1
    and changes nothing.  Ids 4, 5 and 6 hand out the saved control
    vectors without touching channel or element, connected or not.  Id 3
    hands out the front of the receive buffer as it is, without a round
    trip, and dereferences a null pointer when no connection was ever set
    up.  Ids 1 and 2 each cost one force round trip on an established
    connection and dereference the null transmit buffer without one. *)
Theorem getResponse_by_id ext s :
  (forall id, ~ 1 <= id <= 6 -> getResponse ext id s = Done (minus_one, s)) /\
  getResponse ext 4 s = Done (setVector (dbCtrl s), s) /\
  getResponse ext 5 s = Done (setVector (vbCtrl s), s) /\
  getResponse ext 6 s = Done (setVector (abCtrl s), s) /\
  (Unconnected s ->
     getResponse ext 1 s = Undefined NullPointer /\
     getResponse ext 2 s = Undefined NullPointer /\
     getResponse ext 3 s = Undefined NullPointer) /\
  (Connected s ->
     (exists rb, rData s = Some rb /\
        getResponse ext 3 s
        = Done (setVector (take (Z.to_nat (numBasicDOF s)) rb), s)) /\
     (exists s', getResponse ext 1 s = Done (setVector (theVector s'), s') /\
                 getResponse ext 2 s = Done (setVector (theVector s'), s') /\
                 Queried (code ext RemoteTest_getForce) s s')).
Proof.
  split; [| split; [| split; [| split; [| split]]]].
  - intros id Hid. unfold getResponse.
    repeat (rewrite decide_False by lia). reflexivity.
  - reflexivity.
  - reflexivity.
  - reflexivity.
  - intros [_ Hs _ _ _ _ _ _ _ _ Hq _ _].
    unfold getResponse, getResistingForce, sData_store. simpl.
    fields. rewrite Hs, Hq. repeat split.
  - intros HC.
    destruct (Connected_buffers s HC) as (sb & rb & ch & Hs & Hr & Hc & Hls & Hlr).
    pose proof HC as [_ Hn H1 _ _ _ _ _ _ _ _ _ Hq _].
    split.
    + exists rb. split; [exact Hr |]. unfold getResponse. simpl.
      rewrite Hq, (view_get_ok s RData rb); [reflexivity | exact Hr |].
      unfold in_bounds. lia.
    + destruct (getResistingForce_Queried ext s HC) as (s' & Hrun & HQ & _).
      exists s'. unfold getResponse. simpl. rewrite Hrun.
      split; [reflexivity | split; [reflexivity | exact HQ]].
Qed.

Lemma getResponse_by_id_witness :
  getResponse no_rayleigh 3 element_2x3 = Undefined NullPointer /\
  getResponse no_rayleigh 3 connected_2x3
  = Done (setVector [0; 0; 0]%float, connected_2x3).
Proof.
  pose proof (getResponse_by_id no_rayleigh element_2x3)
    as (_ & _ & _ & _ & HU & _).
  pose proof (getResponse_by_id no_rayleigh connected_2x3)
    as (_ & _ & _ & _ & _ & HCn).
  split.
  - exact (proj2 (proj2 (HU element_2x3_Unconnected))).
  - destruct (proj1 (HCn connected_2x3_Connected)) as (rb & Hrb & Hrun).
    rewrite Hrun. injection Hrb as <-. reflexivity.
Defined.

Lemma take_drop_segment (pre mid post : Vector) n k :
  length pre = k -> length mid = n ->
  take n (drop k (pre ++ mid ++ post)) = mid.
Proof.
  intros <- <-. rewrite drop_app_length, take_app_length. reflexivity.
Qed.

(** X16. What the recorder sees: after an [update] and the
    [getResistingForce] that follows it, response ids 4, 5 and 6 report
    exactly the selected trial displacements, velocities and
    accelerations that the update pushed (in basic space, node after
    node), and they do so without any further call on the channel. *)
Theorem recorder_reports_pushed_state ext remote dom s nds :
  Connected s -> Attached dom s nds ->
  numBasicDOF s = sumZ (ID_Size <$> theDOF s) ->
  exists rc s1 s2,
    update ext remote dom s = Done (rc, s1) /\
    getResistingForce ext s1 = Done (ref_theVector, s2) /\
    getResponse ext 4 s2
    = Done (setVector (pushed getTrialDisp (theDOF s) nds), s2) /\
    getResponse ext 5 s2
    = Done (setVector (pushed getTrialVel (theDOF s) nds), s2) /\
    getResponse ext 6 s2
    = Done (setVector (pushed getTrialAccel (theDOF s) nds), s2).
Proof.
  intros HC HA HnB.
  destruct (Connected_buffers s HC) as (sb & rb & ch & Hs & Hr & Hc & Hls & Hlr).
  pose proof HA as [_ _ HlD _].
  pose proof HC as [_ Hn _ _ _ _ _ _ _ _ _ _ _ _].
  pose proof (after_update_Connected ext dom s nds sb ch HC HA HnB Hs) as HC1.
  set (cat := length (concat (theDOF s))).
  assert (Hcat : Z.to_nat (numBasicDOF s) = cat).
  { unfold cat. pose proof (concat_length_sumZ (theDOF s)). lia. }
  eexists _, (after_update ext dom nds sb ch s), _.
  split; [apply update_ok; assumption |].
  split.
  { apply (getResistingForce_ok ext _
             (trial_buffer ext dom (theDOF s) nds sb) rb
             (log (sendVector (trial_buffer ext dom (theDOF s) nds sb)) ch));
      [exact HC1 | reflexivity | exact Hr | reflexivity]. }
  unfold getResponse. simpl.
  unfold after_getResistingForce. fields. rewrite Hcat.
  unfold trial_buffer, message. simpl.
  assert (HlP : forall get, length (pushed get (theDOF s) nds) = cat)
    by (intros get; apply pushed_length; exact HlD).
  split; [| split]; do 3 f_equal.
  - apply (take_drop_segment [] _ _ cat 0%nat); [reflexivity | apply HlP].
  - apply (take_drop_segment (pushed getTrialDisp (theDOF s) nds));
      apply HlP.
  - rewrite app_assoc.
    apply (take_drop_segment
             (pushed getTrialDisp (theDOF s) nds
              ++ pushed getTrialVel (theDOF s) nds)).
    + rewrite length_app, !HlP. reflexivity.
    + apply HlP.
Qed.

Lemma recorder_reports_pushed_state_witness :
  exists rc s1 s2,
    update no_rayleigh remote_up domain_2x3 connected_2x3 = Done (rc, s1) /\
    getResistingForce no_rayleigh s1 = Done (ref_theVector, s2) /\
    getResponse no_rayleigh 4 s2 = Done (setVector [1; 2; 4]%float, s2) /\
    getResponse no_rayleigh 5 s2 = Done (setVector [0.25; 0; 0.5]%float, s2) /\
    getResponse no_rayleigh 6 s2 = Done (setVector [0; 0; 0]%float, s2).
Proof.
  exact (recorder_reports_pushed_state no_rayleigh remote_up domain_2x3
           connected_2x3 [node_1; node_2] connected_2x3_Connected
           connected_2x3_Attached eq_refl).
Defined.

(** ** Scattering a reply into full space *)

Lemma Vector_addAt_length p x v : length (Vector_addAt p x v) = length v.
Proof. unfold Vector_addAt. case_decide; [apply length_alter | reflexivity]. Qed.

Lemma Vector_addAt_other p x v (j : nat) :
  Z.of_nat j ≠ p -> Vector_addAt p x v !! j = v !! j.
Proof.
  intros Hj. unfold Vector_addAt. case_decide; [| reflexivity].
  apply list_lookup_alter_ne. lia.
Qed.

Lemma Vector_addAt_same p x v y :
  0 <= p -> v !! Z.to_nat p = Some y ->
  Vector_addAt p x v !! Z.to_nat p = Some (PrimFloat.add y x).
Proof.
  intros Hp Hy. unfold Vector_addAt. rewrite decide_True by exact Hp.
  rewrite list_lookup_alter_eq, Hy. reflexivity.
Qed.

Lemma Vector_Assemble_length q l v : length (Vector_Assemble q l v) = length v.
Proof.
  unfold Vector_Assemble. generalize (zip l q). intros ps. revert v.
  induction ps as [|[p x] ps IH]; intros v; [reflexivity |]. simpl.
  rewrite IH. apply Vector_addAt_length.
Qed.

(** A position that the index set does not name is left alone. *)
Lemma Vector_Assemble_other q l v (j : nat) :
  Z.of_nat j ∉ l -> Vector_Assemble q l v !! j = v !! j.
Proof.
  unfold Vector_Assemble. revert q v.
  induction l as [|p l IH]; intros q v Hj; [reflexivity |].
  destruct q as [|x q]; [reflexivity |]. simpl.
  apply not_elem_of_cons in Hj as [Hp Hl].
  rewrite IH by exact Hl. apply Vector_addAt_other. exact Hp.
Qed.

(** A position that the index set names once receives its entry. *)
Lemma Vector_Assemble_at q l v i p x y :
  NoDup l -> l !! i = Some p -> 0 <= p -> q !! i = Some x ->
  v !! Z.to_nat p = Some y ->
  Vector_Assemble q l v !! Z.to_nat p = Some (PrimFloat.add y x).
Proof.
  revert q v i. induction l as [|p0 l IH]; intros q v i Hnd Hi Hp Hx Hy;
    [discriminate |].
  destruct q as [|x0 q]; [destruct i; discriminate |].
  apply NoDup_cons in Hnd as [Hnot Hnd].
  destruct i as [|i]; simpl in Hi, Hx.
  - injection Hi as ->. injection Hx as ->.
    change (Vector_Assemble (x :: q) (p :: l) v)
      with (Vector_Assemble q l (Vector_addAt p x v)).
    rewrite Vector_Assemble_other by (rewrite Z2Nat.id by exact Hp; exact Hnot).
    apply Vector_addAt_same; assumption.
  - change (Vector_Assemble (x0 :: q) (p0 :: l) v)
      with (Vector_Assemble q l (Vector_addAt p0 x0 v)).
    apply (IH q _ i); try assumption.
    rewrite Vector_addAt_other; [exact Hy |].
    rewrite Z2Nat.id by exact Hp. intros ->.
    apply Hnot. apply (list_elem_of_lookup_2 _ i). exact Hi.
Qed.

(** X17. Scatter fidelity of [getResistingForce].  When the Basic DOF
    Index Set names each position once and inside the force vector, then
    after the call the force vector, read back at position basicDOF(i),
    holds entry i of the receive buffer added to zero, every other
    position holds zero, and the size of the vector is unchanged. *)
Theorem getResistingForce_scatter ext s :
  Connected s ->
  NoDup (basicDOF s) ->
  Forall (fun p => 0 <= p < Vector_Size (theVector s)) (basicDOF s) ->
  ID_Size (basicDOF s) = numBasicDOF s ->
  exists s' rb',
    getResistingForce ext s = Done (ref_theVector, s') /\
    rData s' = Some rb' /\
    length (theVector s') = length (theVector s) /\
    (forall i p x,
       basicDOF s !! i = Some p -> rb' !! i = Some x ->
       theVector s' !! Z.to_nat p = Some (PrimFloat.add dzero x)) /\
    (forall j : nat,
       (j < length (theVector s))%nat -> Z.of_nat j ∉ basicDOF s ->
       theVector s' !! j = Some dzero).
Proof.
  intros HC Hnd Hrange HlB.
  destruct (Connected_buffers s HC) as (sb & rb & ch & Hs & Hr & Hc & Hls & Hlr).
  eexists _, _.
  split; [apply (getResistingForce_ok ext s sb rb ch); assumption |].
  unfold after_getResistingForce. fields.
  split; [reflexivity |].
  split; [rewrite Vector_Assemble_length; unfold Vector_Zero;
          apply length_replicate |].
  split.
  - intros i p x Hi Hx.
    pose proof (proj1 (Forall_lookup _ _) Hrange i p Hi) as [Hp0 Hp1].
    apply (Vector_Assemble_at _ _ _ i); try assumption.
    + rewrite lookup_take_lt; [exact Hx |].
      apply lookup_lt_Some in Hi. unfold ID_Size in HlB. lia.
    + unfold Vector_Zero. apply lookup_replicate_2.
      unfold Vector_Size in Hp1. lia.
  - intros j Hj Hnot. rewrite Vector_Assemble_other by exact Hnot.
    unfold Vector_Zero. apply lookup_replicate_2. exact Hj.
Qed.

Lemma getResistingForce_scatter_witness :
  exists s' rb',
    getResistingForce no_rayleigh connected_2x3 = Done (ref_theVector, s') /\
    rData s' = Some rb' /\
    length (theVector s') = 6%nat /\
    (forall i p x,
       basicDOF connected_2x3 !! i = Some p -> rb' !! i = Some x ->
       theVector s' !! Z.to_nat p = Some (PrimFloat.add dzero x)) /\
    (forall j : nat,
       (j < 6)%nat -> Z.of_nat j ∉ basicDOF connected_2x3 ->
       theVector s' !! j = Some dzero).
Proof.
  apply (getResistingForce_scatter no_rayleigh connected_2x3).
  - exact connected_2x3_Connected.
  - repeat (apply NoDup_cons; split;
            [rewrite ?not_elem_of_cons; repeat split;
               first [discriminate | apply not_elem_of_nil] |]).
    apply NoDup_nil. exact I.
  - repeat constructor; vm_compute; discriminate.
  - reflexivity.
Defined.

(** ** Construction, and use after detachment *)

(** X18. Construction from a node list and one DOF selection per node
    succeeds and yields an inert element: the class invariant holds, no
    channel exists and no call was made, no buffer or view is allocated,
    both cache flags are clear, every node pointer is null, numDOF is 0,
    and the index set and the three control vectors are numBasicDOF zeros,
    numBasicDOF being the total number of selected DOFs. *)
Theorem constructor_state nodes_ dof _port addr _ssl _udp datasize addRay :
  length dof = length nodes_ ->
  exists s,
    GenericClient_new nodes_ dof _port addr _ssl _udp datasize addRay
    = Done s /\
    Built s /\ Unconnected s /\ calls_of s = [] /\
    theDOF s = dof /\
    numBasicDOF s = sumZ (ID_Size <$> dof) /\
    basicDOF s = ID_new (numBasicDOF s) /\
    dbCtrl s = Vector_new (numBasicDOF s) /\
    vbCtrl s = Vector_new (numBasicDOF s) /\
    abCtrl s = Vector_new (numBasicDOF s) /\
    theNodes s = replicate (length nodes_) None /\
    numDOF s = 0 /\ theDomain s = false.
Proof.
  intros Hlen.
  destruct (GenericClient_new_ok nodes_ dof _port addr _ssl _udp datasize
              addRay Hlen) as (s & Hnew & _ & _ & _ & HB & HU).
  exists s. split; [exact Hnew |]. split; [exact HB |]. split; [exact HU |].
  revert Hnew. unfold GenericClient_new.
  rewrite new_loop by lia. rewrite bind_Done. cbn beta iota.
  rewrite <- Hlen, firstn_all. intros [= <-]. cbn.
  pose proof (sumZ_sizes_nonneg dof) as Hnn.
  rewrite !Vector_Zero_resize, ID_Zero_resize by exact Hnn.
  replace (Z.to_nat (ID_Size nodes_)) with (length dof)
    by (unfold ID_Size; lia).
  repeat split.
Qed.

Lemma constructor_state_witness :
  exists s,
    GenericClient_new [1; 2] [[0; 1]; [0]] 8090 None 0 0 0 0 = Done s /\
    numBasicDOF s = 3 /\ basicDOF s = [0; 0; 0] /\
    dbCtrl s = [0; 0; 0]%float /\ theNodes s = [None; None].
Proof.
  destruct (constructor_state [1; 2] [[0; 1]; [0]] 8090 None 0 0 0 0 eq_refl)
    as (s & Hnew & _ & _ & _ & _ & HnB & Hbd & Hdb & _ & _ & HN & _).
  exists s. split; [exact Hnew |]. rewrite Hbd, Hdb, HnB.
  split; [reflexivity |]. split; [reflexivity |].
  split; [reflexivity | exact HN].
Defined.



